(** * wordwarden: the spellcheck script, embedded and verified

    A shallow embedding of [spellcheck.py]: the context reporter
    ([print_words_context]), the content pruner ([prune_content]) and the
    driver ([main]), together with the properties of the script's
    specification that concern them.

    Conventions.
    - A Python [str] is a [string]; each [ascii] stands for one character.
    - A Python [int] is a [Z]; a [set] is a [gset], iterated in the
      (unspecified) order of [elements].
    - What the script gets from outside (the file system, [glob],
      [subprocess.run], BeautifulSoup's parser and serialiser,
      [textwrap.fill]) is a field of the record [World]. A path is the
      string [glob] gave; [Path(...)] and [str(...)] of it are left out.
    - Effects are explicit: a computation of type [M A] yields the trace of
      the events it caused (processes run, text printed) and either a value
      or the exception that ended it. *)

From Stdlib Require Import ZArith Ascii Lia.
From stdpp Require Import base tactics option list sorting gmap strings pretty.

Local Open Scope Z_scope.

(** ** Python strings *)

Module PyStr.

(** [str.isspace] on one character: the Unicode white space below 256. *)
Definition isspace (c : ascii) : bool :=
  let n := N_of_ascii c in
  ((9 <=? n) && (n <=? 13) || (28 <=? n) && (n <=? 32)
   || (n =? 133) || (n =? 160))%N.

Definition newline : ascii := "010"%char.

Fixpoint all_space (s : string) : bool :=
  match s with
  | "" => true
  | String c s' => isspace c && all_space s'
  end.

(** [s.lstrip()], [s.rstrip()] and [s.strip()]. *)
Fixpoint lstrip (s : string) : string :=
  match s with
  | "" => ""
  | String c s' => if isspace c then lstrip s' else s
  end.

Fixpoint rstrip (s : string) : string :=
  match s with
  | "" => ""
  | String c s' =>
      match rstrip s' with
      | "" => if isspace c then "" else String c ""
      | r => String c r
      end
  end.

Definition strip (s : string) : string := rstrip (lstrip s).

(** [s.split("\n")]: never empty, one more piece than there are newlines. *)
Fixpoint split_lines (s : string) : list string :=
  match s with
  | "" => [""]
  | String c s' =>
      if Ascii.eqb c newline then "" :: split_lines s'
      else match split_lines s' with
           | piece :: pieces => String c piece :: pieces
           | [] => [String c ""]
           end
  end.

(** ["\n".join(ws)], the inverse the engine applies. *)
Fixpoint join_lines (ws : list string) : string :=
  match ws with
  | [] => ""
  | [w] => w
  | w :: ws' => w +:+ String newline (join_lines ws')
  end.

Fixpoint startswith (p s : string) : bool :=
  match p, s with
  | "", _ => true
  | String a p', String b s' => Ascii.eqb a b && startswith p' s'
  | String _ _, "" => false
  end.

(** [w in s]: substring test, case-sensitive. *)
Fixpoint contains (w s : string) : bool :=
  startswith w s ||
  match s with
  | "" => false
  | String _ s' => contains w s'
  end.

(** [s.replace(old, new)] for a non-empty [old]: the occurrences of [old]
    are taken left to right and do not overlap. [skip] counts the
    characters of a replaced occurrence still to be dropped. *)
Fixpoint replace_go (old new : string) (skip : nat) (s : string) : string :=
  match s with
  | "" => ""
  | String c s' =>
      match skip with
      | S k => replace_go old new k s'
      | O =>
          if startswith old s
          then new +:+ replace_go old new (String.length old - 1) s'
          else String c (replace_go old new 0 s')
      end
  end.

(** With an empty [old], Python puts [new] before every character and at
    the end. *)
Fixpoint intersperse (new s : string) : string :=
  match s with
  | "" => new
  | String c s' => new +:+ String c (intersperse new s')
  end.

Definition replace (old new s : string) : string :=
  match old with
  | "" => intersperse new s
  | _ => replace_go old new 0 s
  end.

(** [c * n] for a one-character string. *)
Fixpoint times (c : ascii) (n : nat) : string :=
  match n with
  | O => ""
  | S n' => String c (times c n')
  end.

(** [str(n)] for an [int]. *)
Definition str_int (n : Z) : string := pretty n.

(** [f"{n:{width}}"] for an [int]: right-aligned, padded with spaces. *)
Definition format_int (n : Z) (width : nat) : string :=
  let digits := str_int n in
  times " "%char (width - String.length digits) +:+ digits.

End PyStr.

(** ** ANSI escape codes *)

Definition ESC : string := String "027"%char "".
Definition RED : string := ESC +:+ "[31m".
Definition GREEN : string := ESC +:+ "[32m".
Definition BLUE : string := ESC +:+ "[34m".
Definition BOLD : string := ESC +:+ "[1m".
Definition RESET : string := ESC +:+ "[0m".

Definition TEXTWIDTH : Z := 80.

(** ** Exceptions, events and the monad of the script *)

(** The argument of a [SpellcheckError]: one constructor per [raise] of the
    script, with the values its message interpolates. *)
Inductive message :=
  | DictionaryNotString
      (* "Dictionary path must be a single string" *)
  | DictionaryMissing
      (* "No file exists at the specified dictionary path." *)
  | SpellcheckFailed (filepath : string) (cmd : list string) (err : string)
      (* "Failed to spellcheck {filepath}: Running '{cmd}' failed ..." *)
  | NonExistentFile (filepath : string)
      (* "Can't spellcheck non-existent file: {filepath}" *)
  | ToHtmlFailed (filepath : string) (cmd : list string)
      (* "Failed to convert '{filepath}' to HTML: ..." *)
  | ToMarkdownFailed (filepath : string) (cmd : list string).
      (* "Failed to convert '{filepath}' back to markdown from HTML: ..." *)

Inductive exn :=
  | SpellcheckError (msg : message)
  | IndexError
  | OSError
  | UnicodeDecodeError.

Inductive result (A : Type) :=
  | Ok (a : A)
  | Raise (e : exn).
Arguments Ok {A} a.
Arguments Raise {A} e.

(** What a run does to the outside, in order. *)
Inductive event :=
  | Run (cmd : list string) (input : option string)   (* subprocess.run *)
  | Stdout (text : string)                            (* print *)
  | Fatal (msg : message).       (* the fatal-error line on sys.stderr *)

Definition M (A : Type) : Type := list event * result A.

Definition ret {A} (a : A) : M A := ([], Ok a).

Definition bind {A B} (m : M A) (k : A → M B) : M B :=
  match m with
  | (t, Ok a) => let '(t', r) := k a in (t ++ t', r)
  | (t, Raise e) => (t, Raise e)
  end.

Definition raise {A} (e : exn) : M A := ([], Raise e).
Definition emit (e : event) : M unit := ([e], Ok tt).

Definition trace {A} (m : M A) : list event := m.1.
Definition outcome {A} (m : M A) : result A := m.2.

Notation "'do' x <- m ; k" := (bind m (λ x, k))
  (at level 10, x pattern, m at level 100, k at level 200).

(** [for x in xs: body x]. *)
Fixpoint for_each {A} (xs : list A) (body : A → M unit) : M unit :=
  match xs with
  | [] => ret tt
  | x :: xs' => do _ <- body x; for_each xs' body
  end.

(** [print(text)] and [print(text, end="")]. *)
Definition print (text : string) : M unit :=
  emit (Stdout (text +:+ String PyStr.newline "")).
Definition print_end (text end_ : string) : M unit :=
  emit (Stdout (text +:+ end_)).

(** [l[i]] for a Python list: negative indices count from the end. *)
Definition py_index {A} (l : list A) (i : Z) : M A :=
  let n := Z.of_nat (length l) in
  let j := if i <? 0 then i + n else i in
  if (j <? 0) || (n <=? j) then raise IndexError
  else match l !! Z.to_nat j with
       | Some x => ret x
       | None => raise IndexError
       end.

(** ** The HTML tree of BeautifulSoup

    A string of the tree has a class, which the parser gives it:
    [NavigableString] (and [CData]) for text, [Comment] (and the other
    preformatted strings: declarations, doctypes, processing instructions)
    for what is no text, and for what is written inside an [rt], [rp],
    [style], [script] or [template] tag the class of that tag
    ([RubyTextString], [RubyParenthesisString], [Stylesheet], [Script],
    [TemplateString]), here [ContainerString]. *)

#[warnings="-register-all"] Inductive node :=
  | NavigableString (text : string)
  | Comment (text : string)
  | ContainerString (text : string)
  | Tag (name : string) (attrs : gmap string string) (contents : list node).

Definition soup := list node.

(** ** The outside world *)

Record completed_process := CompletedProcess {
  returncode : Z;
  proc_stdout : string;
  proc_stderr : string
}.

(** Why [open(p).readlines()] raises, when it does: the file cannot be
    opened ([OSError]), or it opens and its bytes do not decode
    ([UnicodeDecodeError]). *)
Inductive read_error :=
  | CannotOpen
  | CannotDecode.

Definition read_exception (r : read_error) : exn :=
  match r with
  | CannotOpen => OSError
  | CannotDecode => UnicodeDecodeError
  end.

Record World := {
  (** [glob.glob(pattern, recursive=True)] *)
  glob_glob : string → list string;
  (** [Path(p).exists()] *)
  path_exists : string → bool;
  (** [open(p).readlines()]; [None] when it raises, and [read_failure]
      then tells why *)
  readlines : string → option (list string);
  read_failure : string → read_error;
  (** [subprocess.run(cmd, input=...)], before [check=True] is applied *)
  subprocess_run : list string → option string → completed_process;
  (** [BeautifulSoup(html, "html.parser")], which gives every string of
      the tree its class, and [str(soup)] *)
  html_parser : string → soup;
  soup_str : soup → string;
  (** [textwrap.fill(text, width=width)] *)
  textwrap_fill : string → Z → string
}.

(** ** A checked file *)

Record CheckedFile := {
  filepath : string;
  misspelled_words : list string
}.

(** ** The context reporter: [print_words_context] *)

Module Reporter.

(** The body of [for word in words], for the line [line] at [index]:
    the state is [match_lines] and [new_content_line]. *)
Definition mark_word (index : Z) (line : string)
    (st : gset Z * string) (word : string) : gset Z * string :=
  let '(match_lines, new_content_line) := st in
  if PyStr.contains word line
  then ({[index]} ∪ match_lines,
        PyStr.replace word (RED +:+ word +:+ RESET) new_content_line)
  else st.

(** [for index, line in enumerate(content_lines)]: the lines from [index]
    on; returns [match_lines] and the highlighted [content_lines]. *)
Fixpoint mark_lines (words : list string) (index : Z)
    (content_lines : list string) (match_lines : gset Z)
    : gset Z * list string :=
  match content_lines with
  | [] => (match_lines, [])
  | line :: rest =>
      let '(match_lines, new_content_line) :=
        foldl (mark_word index line) (match_lines, line) words in
      let '(match_lines, rest') :=
        mark_lines words (index + 1) rest match_lines in
      (match_lines, new_content_line :: rest')
  end.

(** The body of [for match_line in match_lines]; [len] is
    [len(content_lines)]. *)
Definition add_context (len : Z) (print_lines : gset Z) (match_line : Z)
    : gset Z :=
  let print_lines :=
    if 0 <? match_line then {[match_line - 1]} ∪ print_lines
    else print_lines in
  let print_lines :=
    if match_line <? len - 1 then {[match_line + 1]} ∪ print_lines
    else print_lines in
  {[match_line]} ∪ print_lines.

Definition context_lines (len : Z) (match_lines : gset Z) : gset Z :=
  foldl (add_context len) ∅ (elements match_lines).

(** [sorted(s)] for a set of integers. *)
Definition sorted (s : gset Z) : list Z := merge_sort Z.le (elements s).

Definition line_number_width (content_lines : list string) : nat :=
  String.length (PyStr.str_int (Z.of_nat (length content_lines) + 1)).

Definition separator (width : nat) : string :=
  BLUE +:+ PyStr.times "-"%char width +:+ RESET.

Definition numbered (width : nat) (print_line : Z) (content : string)
    : string :=
  let line_number := PyStr.format_int (print_line + 1) width +:+ ":" in
  (BLUE +:+ line_number +:+ RESET) +:+ " " +:+ content.

(** [for print_line in sorted(print_lines)], with [last_print_line]. *)
Fixpoint print_loop (content_lines : list string) (width : nat)
    (last_print_line : Z) (todo : list Z) : M unit :=
  match todo with
  | [] => ret tt
  | print_line :: rest =>
      do _ <- (if 1 <? print_line - last_print_line
               then print (separator width) else ret tt);
      do content <- py_index content_lines print_line;
      do _ <- print_end (numbered width print_line content) "";
      print_loop content_lines width print_line rest
  end.

Section with_world.
Context (w : World).

Definition print_words_context (path : string) (words : list string)
    : M unit :=
  do content_lines <-
    match readlines w path with
    | Some ls => ret ls
    | None => raise (read_exception (read_failure w path))
    end;
  let '(match_lines, content_lines) := mark_lines words 0 content_lines ∅ in
  let print_lines :=
    context_lines (Z.of_nat (length content_lines)) match_lines in
  do last_print_line <- py_index (sorted print_lines) 0;
  let width := line_number_width content_lines in
  do _ <- print_loop content_lines width last_print_line (sorted print_lines);
  print "".

End with_world.

End Reporter.

(** ** The content pruner: [prune_content] *)

Module Pruner.

(** [tag.get_text()] of a tag that is none of [rt], [rp], [style],
    [script], [template], as every [a] tag is: the strings below the node
    whose class is [NavigableString] or [CData]; comments and the strings
    the parser made inside one of those five tags are left out. *)
Fixpoint get_text (n : node) : string :=
  match n with
  | NavigableString text => text
  | Comment _ => ""
  | ContainerString _ => ""
  | Tag _ _ contents =>
      (fix all (l : list node) : string :=
         match l with
         | [] => ""
         | c :: l' => get_text c +:+ all l'
         end) contents
  end.

Definition soup_text (s : soup) : string :=
  foldr (λ c acc, get_text c +:+ acc) "" s.

(** What [find_all] is asked for. *)
Definition is_code (name : string) (attrs : gmap string string) : bool :=
  bool_decide (name = "code").

Definition is_source_div (name : string) (attrs : gmap string string)
    : bool :=
  bool_decide (name = "div") &&
  match attrs !! "class" with
  | Some classes => bool_decide ("sourceCode" ∈ String.words classes)
  | None => false
  end.

Definition is_link (name : string) : bool := bool_decide (name = "a").

(** [for t in soup.find_all(...): t.decompose()]: every matching tag
    leaves the tree with all it contains. *)
Fixpoint decompose_node (p : string → gmap string string → bool) (n : node)
    : list node :=
  match n with
  | Tag name attrs contents =>
      if p name attrs then []
      else [Tag name attrs
              ((fix all (l : list node) : list node :=
                  match l with
                  | [] => []
                  | c :: l' => decompose_node p c ++ all l'
                  end) contents)]
  | _ => [n]
  end.

Definition decompose_all (p : string → gmap string string → bool)
    (s : soup) : soup :=
  flat_map (decompose_node p) s.

(** [for a in soup.find_all("a"): a.replace_with(a.get_text())]. *)
Fixpoint flatten_node (n : node) : node :=
  match n with
  | Tag name attrs contents =>
      if is_link name then NavigableString (get_text n)
      else Tag name attrs (map flatten_node contents)
  | _ => n
  end.

Definition flatten_links (s : soup) : soup := map flatten_node s.

(** [re.sub(r"https://[\S]*", "", s)]; [inside] is true while the current
    match goes on. *)
Fixpoint strip_https_go (inside : bool) (s : string) : string :=
  match s with
  | "" => ""
  | String c s' =>
      if inside && negb (PyStr.isspace c) then strip_https_go true s'
      else if PyStr.startswith "https://" s then strip_https_go true s'
      else String c (strip_https_go false s')
  end.

Definition strip_https (s : string) : string := strip_https_go false s.

Section with_world.
Context (w : World).

(** [subprocess.run(cmd, ..., check=True)] inside [try], the
    [CalledProcessError] turned into the [SpellcheckError] [failed]. *)
Definition run_checked (cmd : list string) (input : option string)
    (failed : completed_process → message) : M completed_process :=
  do _ <- emit (Run cmd input);
  let r := subprocess_run w cmd input in
  if returncode r =? 0 then ret r else raise (SpellcheckError (failed r)).

Definition to_html_cmd (path : string) : list string :=
  ["pandoc"; path; "--to"; "html"].
Definition to_markdown_cmd : list string :=
  ["pandoc"; "--from"; "html"; "--to"; "markdown"].

Definition prune_content (path : string) : M string :=
  if negb (path_exists w path)
  then raise (SpellcheckError (NonExistentFile path))
  else
    do pandoc_to_html_result <-
      run_checked (to_html_cmd path) None
        (λ _, ToHtmlFailed path (to_html_cmd path));
    let html_version := PyStr.strip (proc_stdout pandoc_to_html_result) in
    let soup := html_parser w html_version in
    let soup := decompose_all is_code soup in
    let soup := decompose_all is_source_div soup in
    let soup := flatten_links soup in
    let pruned_html := soup_str w soup in
    let pruned_html := strip_https pruned_html in
    do pandoc_to_markdown_result <-
      run_checked to_markdown_cmd (Some pruned_html)
        (λ _, ToMarkdownFailed path to_markdown_cmd);
    ret (proc_stdout pandoc_to_markdown_result).

End with_world.

End Pruner.

(** ** The driver: [main] *)

(** The value of [args.dictionary_path]: argparse gives a [str], another
    caller of [main] may give anything. [PyOther] is a value that is not a
    string, with its truth value and its [str()]. *)
Inductive pyvalue :=
  | PyNone
  | PyString (s : string)
  | PyOther (truth : bool) (shown : string).

Definition truthy (v : pyvalue) : bool :=
  match v with
  | PyNone => false
  | PyString s => negb (String.eqb s "")
  | PyOther truth _ => truth
  end.

Definition py_str (v : pyvalue) : string :=
  match v with
  | PyNone => "None"
  | PyString s => s
  | PyOther _ shown => shown
  end.

Record Args := {
  files : string;
  document_language : string;
  dictionary_path : pyvalue
}.

Module Script.

Section with_world.
Context (w : World).

Definition wrap_print_end (text : string) (end_ : string) : M unit :=
  print_end (textwrap_fill w text TEXTWIDTH) end_.

(** [wrap_print(text)], with the default [end="\n\n"]. *)
Definition wrap_print (text : string) : M unit :=
  wrap_print_end text
    (String PyStr.newline (String PyStr.newline "")).

Definition aspell_cmd (args : Args) : list string :=
  ["aspell"; "--home-dir"; "."; "--mode"; "markdown"; "--lang";
   document_language args].

(** [if args.dictionary_path: ...]: the command with the personal
    dictionary added, or the error of a bad dictionary argument. *)
Definition with_dictionary (args : Args) (spellcheck_cmd : list string)
    : M (list string) :=
  if truthy (dictionary_path args) then
    match dictionary_path args with
    | PyString path =>
        if negb (path_exists w path)
        then raise (SpellcheckError DictionaryMissing)
        else ret (spellcheck_cmd ++ ["--personal"; path])
    | _ => raise (SpellcheckError DictionaryNotString)
    end
  else ret spellcheck_cmd.

(** Lines 78 to 116: prune, build the command, run the engine; the
    result is [result.stdout]. *)
Definition spellcheck (args : Args) (path : string) : M string :=
  do pruned_content <- Pruner.prune_content w path;
  let spellcheck_cmd := aspell_cmd args in
  do spellcheck_cmd <- with_dictionary args spellcheck_cmd;
  let spellcheck_cmd := spellcheck_cmd ++ ["list"] in
  do result <-
    Pruner.run_checked w spellcheck_cmd (Some pruned_content)
      (λ r, SpellcheckFailed path spellcheck_cmd (proc_stderr r));
  ret (proc_stdout result).

(** Lines 117 to 130: the file joins [good_files] or [bad_files]. *)
Definition classify (path : string) (engine_out : string)
    (lists : list CheckedFile * list CheckedFile)
    : list CheckedFile * list CheckedFile :=
  let '(good_files, bad_files) := lists in
  let standard_out := PyStr.strip engine_out in
  if negb (String.eqb standard_out "") then
    let misspelled_words :=
      map PyStr.strip (PyStr.split_lines standard_out) in
    (good_files,
     bad_files ++ [{| filepath := path;
                      misspelled_words := misspelled_words |}])
  else
    (good_files ++ [{| filepath := path; misspelled_words := [] |}],
     bad_files).

(** [for filepath in filepaths]. *)
Fixpoint check_files (args : Args) (filepaths : list string)
    (lists : list CheckedFile * list CheckedFile)
    : M (list CheckedFile * list CheckedFile) :=
  match filepaths with
  | [] => ret lists
  | path :: rest =>
      do engine_out <- spellcheck args path;
      check_files args rest (classify path engine_out lists)
  end.

Definition is_empty {A} (l : list A) : bool :=
  match l with [] => true | _ => false end.

(** Lines 132 to 143. *)
Definition report_good (good_files bad_files : list CheckedFile)
    : M unit :=
  if negb (is_empty good_files) then
    do _ <- (if 1 <? Z.of_nat (length good_files)
             then wrap_print
                    ("The following files are free from spelling errors:"
                     +:+ String PyStr.newline "")
             else wrap_print
                    ("The following file is free from spelling errors:"
                     +:+ String PyStr.newline ""));
    do _ <- for_each good_files
              (λ good_file, print ("  - " +:+ filepath good_file));
    do _ <- print "";
    if is_empty bad_files
    then print (GREEN +:+ "All checked files are free from misspellings!"
                +:+ RESET)
    else ret tt
  else ret tt.

(** [set(words)], iterated. *)
Definition distinct (words : list string) : list string :=
  elements (list_to_set words : gset string).

(** Lines 151 to 164: the report of one bad file. *)
Definition report_bad_file (bad_file : CheckedFile) : M unit :=
  do _ <- wrap_print
            ("The file " +:+ BOLD +:+ filepath bad_file +:+ RESET
             +:+ " has potentially "
             +:+ "misspelled words, highlighted in their context here:");
  do _ <- Reporter.print_words_context w (filepath bad_file)
            (misspelled_words bad_file);
  do _ <- wrap_print
            ("All occurences of the detected potential misspellings are "
             +:+ "highlighted, but code and the link part of markdown links "
             +:+ "do not actually trigger the spellcheck. The potentially "
             +:+ "misspelled words are:");
  do _ <- for_each (distinct (misspelled_words bad_file))
            (λ bad_word, print ("  - " +:+ RED +:+ bad_word +:+ RESET));
  print "".

(** Lines 145 to 178. *)
Definition report_bad (args : Args) (bad_files : list CheckedFile)
    : M Z :=
  if negb (is_empty bad_files) then
    do _ <- wrap_print
              ("Found " +:+ BOLD
               +:+ PyStr.str_int (Z.of_nat (length bad_files)) +:+ RESET
               +:+ " files with potentially misspelled " +:+ "words.");
    do _ <- for_each bad_files report_bad_file;
    do _ <- wrap_print
              ("If you think any word marked as misspelled is actually correct in your "
               +:+ "chosen langauge, please update your local dictionary at:");
    do _ <- wrap_print (py_str (dictionary_path args));
    do _ <- wrap_print_end
              ("If the word in question is more 'inline code' than natural language, you "
               +:+ "can circumvent spellchecking by using backticks (`) since inline code is "
               +:+ "not spellchecked.")
              (String PyStr.newline "");
    ret 1
  else ret 0.

(** The result aggregator: what [main] does with the two lists. *)
Definition aggregate (args : Args)
    (good_files bad_files : list CheckedFile) : M Z :=
  do _ <- report_good good_files bad_files;
  report_bad args bad_files.

Definition main (args : Args) : M Z :=
  do _ <- wrap_print (BOLD +:+ "RUNNING SPELLCHECK" +:+ RESET);
  let good_files := [] in
  let bad_files := [] in
  let filepaths := glob_glob w (files args) in
  do (good_files, bad_files) <-
    check_files args filepaths (good_files, bad_files);
  aggregate args good_files bad_files.

(** The [__main__] block: [sys.exit(main(args))]; a [SpellcheckError] is
    reported on [sys.stderr] and the status is 1; any other exception is
    not caught, and the interpreter ends with status 1. *)
Definition script (args : Args) : list event * Z :=
  match main args with
  | (t, Ok code) => (t, code)
  | (t, Raise (SpellcheckError msg)) => (t ++ [Fatal msg], 1)
  | (t, Raise _) => (t, 1)
  end.

Definition exit_status (args : Args) : Z := (script args).2.

End with_world.

End Script.

(** ** Notions used to state the properties *)

Module ReportSpec.

(** A line is a match line when some flagged word is a substring of it. *)
Definition is_match (words : list string) (line : string) : bool :=
  existsb (λ word, PyStr.contains word line) words.

(** The printed copy of a line: the words found in the original line are
    replaced one after the other, each in the result of the previous
    replacement. *)
Definition highlight (words : list string) (line : string) : string :=
  foldl (λ new_content_line word,
           if PyStr.contains word line
           then PyStr.replace word (RED +:+ word +:+ RESET) new_content_line
           else new_content_line)
        line words.

(** [word] is wrapped in the highlight marker somewhere in [printed]. *)
Definition wrapped (word printed : string) : bool :=
  PyStr.contains (RED +:+ word +:+ RESET) printed.

(** The set of match lines of a file, as indices. *)
Definition match_line (words : list string) (lines : list string) (n : Z)
    : Prop :=
  ∃ line, 0 ≤ n ∧ lines !! Z.to_nat n = Some line
          ∧ is_match words line = true.

(** The report as the specification words it: the lines [ps] in the order
    given, a separator rule right before the line at position [k] exactly
    when [k] is not the first position and the line's index exceeds the
    index printed before it by more than 1. *)
Definition gap (ps : list Z) (k : nat) : bool :=
  match k with
  | O => false
  | S k' =>
      match ps !! k', ps !! k with
      | Some before, Some this => 1 <? this - before
      | _, _ => false
      end
  end.

Definition rule (width : nat) : event :=
  Stdout (Reporter.separator width +:+ String PyStr.newline "").

Definition context_line (width : nat) (shown : list string) (p : Z) : event :=
  Stdout (Reporter.numbered width p (default "" (shown !! Z.to_nat p)) +:+ "").

(** What the report holds for the line at position [k] of [ps]. *)
Definition block (width : nat) (shown : list string) (ps : list Z)
    (k : nat) (p : Z) : list event :=
  (if gap ps k then [rule width] else []) ++ [context_line width shown p].

Definition report (width : nat) (shown : list string) (ps : list Z)
    : list event :=
  concat (imap (block width shown ps) ps)
  ++ [Stdout ("" +:+ String PyStr.newline "")].

(** The number of decimal digits of a positive integer. *)
Definition digits (n : Z) : nat := String.length (PyStr.str_int n).

End ReportSpec.

(** ** Notions used to state the properties of the driver *)

Module ScriptSpec.

Section with_world.
Context (w : World).

(** A record of [good_files]: no words stored, and the engine's output
    for its file is empty or white space only. *)
Definition good_record (args : Args) (cf : CheckedFile) : Prop :=
  misspelled_words cf = [] ∧
  ∃ engine_out,
    outcome (Script.spellcheck w args (filepath cf)) = Ok engine_out
    ∧ PyStr.all_space engine_out = true.

(** A record of [bad_files]: the lines of the engine's output, which is
    not white space only. *)
Definition bad_record (args : Args) (cf : CheckedFile) : Prop :=
  misspelled_words cf ≠ [] ∧
  ∃ engine_out,
    outcome (Script.spellcheck w args (filepath cf)) = Ok engine_out
    ∧ PyStr.all_space engine_out = false
    ∧ misspelled_words cf =
        map PyStr.strip (PyStr.split_lines (PyStr.strip engine_out)).

(** The reporter succeeds on a bad file: the file can be read and one of
    its lines contains one of the words. *)
Definition reportable (cf : CheckedFile) : Prop :=
  ∃ lines word line,
    readlines w (filepath cf) = Some lines
    ∧ word ∈ misspelled_words cf ∧ line ∈ lines
    ∧ PyStr.contains word line = true.

End with_world.

(** The property of the dictionary as the specification states it, for
    one run: a dictionary path that names no existing file ends the run
    with a fatal error and status 1. *)
Definition missing_dictionary_is_fatal (w : World) (args : Args) : Prop :=
  ∀ dict,
    dictionary_path args = PyString dict →
    path_exists w dict = false →
    (∃ msg, outcome (Script.main w args) = Raise (SpellcheckError msg))
    ∧ Script.exit_status w args = 1.

(** The line printed for a flagged word. *)
Definition word_line (word : string) : event :=
  Stdout (("  - " +:+ RED +:+ word +:+ RESET) +:+ String PyStr.newline "").

(** A word as the engine lists it: not empty, no white space in it. *)
Fixpoint no_space (s : string) : bool :=
  match s with
  | "" => true
  | String c s' => negb (PyStr.isspace c) && no_space s'
  end.

Definition token (word : string) : bool :=
  negb (String.eqb word "") && no_space word.

(** The commands a run started. *)
Definition commands (t : list event) : list (list string) :=
  omap (λ e, match e with Run cmd _ => Some cmd | _ => None end) t.

Definition is_engine (cmd : list string) : bool :=
  match cmd with
  | program :: _ => String.eqb program "aspell"
  | [] => false
  end.

End ScriptSpec.

(** ** Notions used to state the properties of the pruner *)

Module PruneSpec.

(** The hyperlinks of a tree: for every [a] tag with an [href], its
    visible text and its URL target. *)
Fixpoint node_links (n : node) : list (string * string) :=
  match n with
  | Tag name attrs contents =>
      (if Pruner.is_link name
       then match attrs !! "href" with
            | Some url => [(Pruner.get_text n, url)]
            | None => []
            end
       else [])
      ++ (fix all (l : list node) : list (string * string) :=
            match l with
            | [] => []
            | c :: l' => node_links c ++ all l'
            end) contents
  | _ => []
  end.

Definition links (s : soup) : list (string * string) :=
  flat_map node_links s.

(** Some [a] tag is left in the tree. *)
Fixpoint has_link_node (n : node) : bool :=
  match n with
  | Tag name _ contents =>
      Pruner.is_link name
      || (fix any (l : list node) : bool :=
            match l with
            | [] => false
            | c :: l' => has_link_node c || any l'
            end) contents
  | _ => false
  end.

Definition has_link (s : soup) : bool := existsb has_link_node s.



Section with_world.
Context (w : World).

(** The tree BeautifulSoup builds from the converter's HTML for a file. *)
Definition parsed (path : string) : soup :=
  html_parser w
    (PyStr.strip
       (proc_stdout (subprocess_run w (Pruner.to_html_cmd path) None))).

(** The tree after the two removals of code. *)
Definition code_free (path : string) : soup :=
  Pruner.decompose_all Pruner.is_source_div
    (Pruner.decompose_all Pruner.is_code (parsed path)).

(** The property as the specification states it, for one file: the
    pruned text contains the visible text of every hyperlink of the
    document and not its URL target. *)
Definition link_text_kept_url_dropped (path : string) : Prop :=
  ∀ text url pruned,
    (text, url) ∈ links (parsed path) →
    outcome (Pruner.prune_content w path) = Ok pruned →
    PyStr.contains text pruned = true ∧ PyStr.contains url pruned = false.

End with_world.

End PruneSpec.

(** ** A small concrete world

    Five files, a converter that wraps a file's text in one paragraph (or
    gives the tree written out below), an engine that flags every
    occurrence of [wrold]. It serves to run the script on concrete inputs. *)

Module Demo.

Definition nl : string := String PyStr.newline "".

Definition bad_lines : list string :=
  ["Hello wrold." +:+ nl; "This is fine." +:+ nl; "Bye." +:+ nl].

Definition twice_lines : list string :=
  ["A wrold." +:+ nl; "Another wrold." +:+ nl].

Definition overlap_lines : list string :=
  ["A wrold." +:+ nl; "It is wroldly." +:+ nl].

Definition nine_lines : list string :=
  ("A wrold." +:+ nl) :: replicate 8 ("More text." +:+ nl).

Definition files_on_disk : list (string * list string) :=
  [("clean.md", ["All good here." +:+ nl]);
   ("bad.md", bad_lines);
   ("twice.md", twice_lines);
   ("overlap.md", overlap_lines);
   ("nine.md", nine_lines);
   ("links.md", ["See [http://example.org](http://example.org)." +:+ nl]);
   ("words.txt", ["personal_ws-1.1 en 1000 utf-8" +:+ nl])].

Fixpoint lookup_file (path : string) (table : list (string * list string))
    : option (list string) :=
  match table with
  | [] => None
  | (name, lines) :: table' =>
      if String.eqb name path then Some lines else lookup_file path table'
  end.

Definition concat_lines (lines : list string) : string :=
  foldr String.append "" lines.

Definition quote : string := String "034"%char "".

Definition links_html : string :=
  "<p>See <a href=" +:+ quote +:+ "http://example.org" +:+ quote
  +:+ ">http://example.org</a>.</p>".

(** The HTML the converter gives for a file. *)
Definition html_of (path : string) (lines : list string) : string :=
  if String.eqb path "links.md" then links_html
  else "<p>" +:+ PyStr.strip (concat_lines lines) +:+ "</p>".

Definition links_tree : soup :=
  [Tag "p" ∅
     [NavigableString "See ";
      Tag "a" {["href" := "http://example.org"]}
        [NavigableString "http://example.org"];
      NavigableString "."]].

(** The parser: the tree of the one document with a link, and one
    paragraph of text for the others. *)
Definition parse (html : string) : soup :=
  if String.eqb html links_html then links_tree
  else [Tag "p" ∅ [NavigableString
          (String.substring 3 (String.length html - 7) html)]].

(** The serialiser, for trees whose tags have no attributes left. *)
Fixpoint render_node (n : node) : string :=
  match n with
  | NavigableString text => text
  | Comment text => "<!--" +:+ text +:+ "-->"
  | ContainerString text => text
  | Tag name _ contents =>
      "<" +:+ name +:+ ">"
      +:+ (fix all (l : list node) : string :=
             match l with
             | [] => ""
             | c :: l' => render_node c +:+ all l'
             end) contents
      +:+ "</" +:+ name +:+ ">"
  end.

Definition render (s : soup) : string :=
  foldr (λ n acc, render_node n +:+ acc) "" s.

(** HTML to markdown: the tags dropped, a newline added. *)
Fixpoint drop_tags (inside : bool) (s : string) : string :=
  match s with
  | "" => ""
  | String c s' =>
      if Ascii.eqb c "<"%char then drop_tags true s'
      else if Ascii.eqb c ">"%char then drop_tags false s'
      else if inside then drop_tags true s'
      else String c (drop_tags false s')
  end.

(** The engine: one output line per occurrence of [wrold]. *)
Fixpoint flag (s : string) : string :=
  match s with
  | "" => ""
  | String _ s' =>
      if PyStr.startswith "wrold" s then "wrold" +:+ nl +:+ flag s'
      else flag s'
  end.

Definition run (cmd : list string) (input : option string)
    : completed_process :=
  match cmd, input with
  | ["pandoc"; path; "--to"; "html"], None =>
      match lookup_file path files_on_disk with
      | Some lines => CompletedProcess 0 (html_of path lines +:+ nl) ""
      | None => CompletedProcess 1 "" "pandoc: openBinaryFile"
      end
  | ["pandoc"; "--from"; "html"; "--to"; "markdown"], Some html =>
      CompletedProcess 0 (drop_tags false html +:+ nl) ""
  | "aspell" :: _, Some text => CompletedProcess 0 (flag text) ""
  | _, _ => CompletedProcess 127 "" ""
  end.

Definition world : World := {|
  glob_glob pattern :=
    if String.eqb pattern "*.md" then ["clean.md"; "bad.md"]
    else match lookup_file pattern files_on_disk with
         | Some _ => [pattern]
         | None => []
         end;
  path_exists path :=
    match lookup_file path files_on_disk with
    | Some _ => true
    | None => false
    end;
  readlines path := lookup_file path files_on_disk;
  read_failure _ := CannotOpen;
  subprocess_run := run;
  html_parser := parse;
  soup_str := render;
  textwrap_fill text _ := text
|}.

Definition args (pattern : string) : Args := {|
  files := pattern;
  document_language := "en_US";
  dictionary_path := PyString "words.txt"
|}.

Definition args_missing_dictionary (pattern : string) : Args := {|
  files := pattern;
  document_language := "en_US";
  dictionary_path := PyString "missing.txt"
|}.

(** The records the loop makes for three of the files. *)
Definition clean_file : CheckedFile :=
  {| filepath := "clean.md"; misspelled_words := [] |}.
Definition bad_file : CheckedFile :=
  {| filepath := "bad.md"; misspelled_words := ["wrold"] |}.
Definition twice_file : CheckedFile :=
  {| filepath := "twice.md"; misspelled_words := ["wrold"; "wrold"] |}.

End Demo.

(** ** Notions used to state further properties of the script *)

Module MoreSpec.

(** Some tag of the tree is one that [find_all] with [p] would find. *)
Fixpoint has_tag_node (p : string → gmap string string → bool) (n : node)
    : bool :=
  match n with
  | Tag name attrs contents =>
      p name attrs
      || (fix any (l : list node) : bool :=
            match l with
            | [] => false
            | c :: l' => has_tag_node p c || any l'
            end) contents
  | _ => false
  end.

Definition has_tag (p : string → gmap string string → bool) (s : soup)
    : bool :=
  existsb (has_tag_node p) s.

(** The three loops of [prune_content] over the tree, in their order. *)
Definition pruned_tree (s : soup) : soup :=
  Pruner.flatten_links
    (Pruner.decompose_all Pruner.is_source_div
       (Pruner.decompose_all Pruner.is_code s)).

Definition is_run (e : event) : bool :=
  match e with Run _ _ => true | _ => false end.

Definition is_stdout (e : event) : bool :=
  match e with Stdout _ => true | _ => false end.

(** The command line of the engine for a run: the personal dictionary is
    named when [args.dictionary_path] is a non-empty string. *)
Definition engine_cmd (args : Args) : list string :=
  Script.aspell_cmd args
  ++ (match dictionary_path args with
      | PyString path => if String.eqb path "" then [] else ["--personal"; path]
      | _ => []
      end)
  ++ ["list"].

Section with_world.
Context (w : World).

(** What [prune_content] hands to the second conversion, and what it
    gets back, for a file. *)
Definition pruned_html (path : string) : string :=
  Pruner.strip_https
    (soup_str w (Pruner.flatten_links (PruneSpec.code_free w path))).

Definition pruned_markdown (path : string) : string :=
  proc_stdout
    (subprocess_run w Pruner.to_markdown_cmd (Some (pruned_html path))).

(** The three processes a file takes when all goes well. *)
Definition processes (args : Args) (path : string) : list event :=
  [Run (Pruner.to_html_cmd path) None;
   Run Pruner.to_markdown_cmd (Some (pruned_html path));
   Run (engine_cmd args) (Some (pruned_markdown path))].

(** The first line of every run. *)
Definition banner : event :=
  Stdout (textwrap_fill w (BOLD +:+ "RUNNING SPELLCHECK" +:+ RESET)
            TEXTWIDTH
          +:+ String PyStr.newline (String PyStr.newline "")).

End with_world.

(** The character [c] occurs in [s]. *)
Fixpoint has_char (c : ascii) (s : string) : bool :=
  match s with
  | "" => false
  | String a s' => Ascii.eqb a c || has_char c s'
  end.

(** The width of what [numbered] puts before the text of a line, apart
    from the line number: the two colour codes, the colon, the space. *)
Definition decoration : nat :=
  (String.length BLUE + 1 + String.length RESET + 1)%nat.

End MoreSpec.

(** ** A second concrete world

    The world of [Demo] with more paths: a folder, which exists but which
    the converter refuses; a file in which the misspelt word is cut in two
    by markup, so that the word the engine reports is no substring of any
    line of the file; three files with a hyperlink, whose text is plain
    words, an address other than its URL, and code; and a file whose bytes
    do not decode. *)

Module MoreDemo.

Definition emph_lines : list string := ["A wr**old**." +:+ Demo.nl].

Definition emph_html : string := "<p>A wr<strong>old</strong>.</p>".

Definition emph_tree : soup :=
  [Tag "p" ∅
     [NavigableString "A wr";
      Tag "strong" ∅ [NavigableString "old"];
      NavigableString "."]].

Definition docs_lines : list string :=
  ["See [the docs](http://example.org/docs)." +:+ Demo.nl].

Definition docs_html : string :=
  "<p>See <a href=" +:+ Demo.quote +:+ "http://example.org/docs"
  +:+ Demo.quote +:+ ">the docs</a>.</p>".

Definition docs_tree : soup :=
  [Tag "p" ∅
     [NavigableString "See ";
      Tag "a" {["href" := "http://example.org/docs"]}
        [NavigableString "the docs"];
      NavigableString "."]].

Definition address_lines : list string :=
  ["See [https://example.org](https://example.org/page)." +:+ Demo.nl].

Definition address_html : string :=
  "<p>See <a href=" +:+ Demo.quote +:+ "https://example.org/page"
  +:+ Demo.quote +:+ ">https://example.org</a>.</p>".

Definition address_tree : soup :=
  [Tag "p" ∅
     [NavigableString "See ";
      Tag "a" {["href" := "https://example.org/page"]}
        [NavigableString "https://example.org"];
      NavigableString "."]].

Definition code_lines : list string :=
  ["Run [`make`](http://example.org/make)." +:+ Demo.nl].

Definition code_html : string :=
  "<p>Run <a href=" +:+ Demo.quote +:+ "http://example.org/make"
  +:+ Demo.quote +:+ "><code>make</code></a>.</p>".

Definition code_tree : soup :=
  [Tag "p" ∅
     [NavigableString "Run ";
      Tag "a" {["href" := "http://example.org/make"]}
        [Tag "code" ∅ [NavigableString "make"]];
      NavigableString "."]].

Definition link_files : list (string * (list string * string * soup)) :=
  [("docs.md", (docs_lines, docs_html, docs_tree));
   ("address.md", (address_lines, address_html, address_tree));
   ("code.md", (code_lines, code_html, code_tree))].

Fixpoint link_file (path : string)
    (table : list (string * (list string * string * soup)))
    : option (list string * string * soup) :=
  match table with
  | [] => None
  | (name, file) :: table' =>
      if String.eqb name path then Some file else link_file path table'
  end.

Fixpoint link_tree (html : string)
    (table : list (string * (list string * string * soup))) : option soup :=
  match table with
  | [] => None
  | (_, (_, html', tree)) :: table' =>
      if String.eqb html' html then Some tree else link_tree html table'
  end.

Definition run (cmd : list string) (input : option string)
    : completed_process :=
  match cmd, input with
  | ["pandoc"; "emph.md"; "--to"; "html"], None =>
      CompletedProcess 0 (emph_html +:+ Demo.nl) ""
  | ["pandoc"; "folder"; "--to"; "html"], None =>
      CompletedProcess 1 "" "pandoc: folder: withBinaryFile"
  | ["pandoc"; path; "--to"; "html"], None =>
      match link_file path link_files with
      | Some (_, html, _) => CompletedProcess 0 (html +:+ Demo.nl) ""
      | None => Demo.run cmd input
      end
  | _, _ => Demo.run cmd input
  end.

Definition world : World := {|
  glob_glob pattern :=
    if String.eqb pattern "emph.md" then ["emph.md"]
    else if String.eqb pattern "folder" then ["folder"]
    else if String.eqb pattern "latin1.md" then ["latin1.md"]
    else match link_file pattern link_files with
         | Some _ => [pattern]
         | None => glob_glob Demo.world pattern
         end;
  path_exists path :=
    String.eqb path "emph.md" || String.eqb path "folder"
    || String.eqb path "latin1.md"
    || match link_file path link_files with
       | Some _ => true
       | None => path_exists Demo.world path
       end;
  readlines path :=
    if String.eqb path "emph.md" then Some emph_lines
    else match link_file path link_files with
         | Some (lines, _, _) => Some lines
         | None => readlines Demo.world path
         end;
  read_failure path :=
    if String.eqb path "latin1.md" then CannotDecode else CannotOpen;
  subprocess_run := run;
  html_parser html :=
    if String.eqb html emph_html then emph_tree
    else match link_tree html link_files with
         | Some tree => tree
         | None => Demo.parse html
         end;
  soup_str := Demo.render;
  textwrap_fill text _ := text
|}.

Definition emph_file : CheckedFile :=
  {| filepath := "emph.md"; misspelled_words := ["wrold"] |}.

(** A paragraph with nothing to prune. *)
Definition plain_tree : soup :=
  [Tag "p" ∅ [NavigableString "Plain "; Tag "em" ∅ [NavigableString "text"]]].

End MoreDemo.

(** * Properties *)

Local Set Warnings "-clear-no-such-hyp".

(** ** The monad *)

Lemma bind_ret_l {A B} (a : A) (k : A → M B) : bind (ret a) k = k a.
Proof. unfold bind, ret. by destruct (k a). Qed.

Lemma bind_ok {A B} t (a : A) (k : A → M B) :
  bind (t, Ok a) k = (t ++ (k a).1, (k a).2).
Proof. unfold bind. by destruct (k a). Qed.

Lemma bind_raise {A B} t e (k : A → M B) : bind (t, Raise e) k = (t, Raise e).
Proof. done. Qed.

Lemma bind_emit {B} e (k : unit → M B) :
  bind (emit e) k = (e :: (k tt).1, (k tt).2).
Proof. unfold emit. by rewrite bind_ok. Qed.

Lemma bind_Ok_inv {A B} (m : M A) (k : A → M B) t b :
  bind m k = (t, Ok b) →
  ∃ t1 a t2, m = (t1, Ok a) ∧ k a = (t2, Ok b) ∧ t = t1 ++ t2.
Proof.
  destruct m as [t1 [a|e]]; [|done].
  rewrite bind_ok. destruct (k a) as [t2 r] eqn:Hk. simpl.
  intros [= <- ->]. by exists t1, a, t2.
Qed.

Lemma py_index_ok {A} (l : list A) (i : Z) x :
  0 ≤ i → l !! Z.to_nat i = Some x → py_index l i = ret x.
Proof.
  intros Hi Hx. unfold py_index.
  pose proof (lookup_lt_Some _ _ _ Hx) as Hlt.
  destruct (Z.ltb_spec i 0); [lia|].
  destruct (Z.ltb_spec i 0); [lia|].
  destruct (Z.leb_spec (Z.of_nat (length l)) i); [lia|].
  simpl. by rewrite Hx.
Qed.

Lemma py_index_nil {A} (i : Z) : py_index (@nil A) i = raise IndexError.
Proof. unfold py_index. destruct (_ || _); [done|]. by rewrite lookup_nil. Qed.

Module ReporterFacts.
Import Reporter ReportSpec.

Lemma add_context_spec len acc m j :
  j ∈ add_context len acc m ↔
  j ∈ acc ∨ j = m ∨ (j = m - 1 ∧ 0 < m) ∨ (j = m + 1 ∧ m < len - 1).
Proof.
  unfold add_context.
  destruct (Z.ltb_spec 0 m) as [Ha|Ha], (Z.ltb_spec m (len - 1)) as [Hb|Hb];
    rewrite ?elem_of_union, ?elem_of_singleton; intuition lia.
Qed.

Lemma foldl_add_context len l acc j :
  j ∈ foldl (add_context len) acc l ↔
  j ∈ acc ∨ ∃ m, m ∈ l ∧
    (j = m ∨ (j = m - 1 ∧ 0 < m) ∨ (j = m + 1 ∧ m < len - 1)).
Proof.
  revert acc. induction l as [|m l IH]; intros acc; simpl.
  - split; [auto|]. intros [?|(m & Hm & _)]; [done|]. by apply elem_of_nil in Hm.
  - rewrite IH, add_context_spec. split.
    + intros [[?|H]|(m' & Hm' & H)]; [by left| |].
      * right. exists m. split; [left|done].
      * right. exists m'. split; [by right|done].
    + intros [?|(m' & Hm' & H)]; [by left; left|].
      apply elem_of_cons in Hm' as [->|Hm']; [left; by right|].
      right. by exists m'.
Qed.

Lemma context_lines_spec len match_lines j :
  j ∈ context_lines len match_lines ↔
  ∃ m, m ∈ match_lines ∧
    (j = m ∨ (j = m - 1 ∧ 0 < m) ∨ (j = m + 1 ∧ m < len - 1)).
Proof.
  unfold context_lines. rewrite foldl_add_context. split.
  - intros [H|(m & Hm & H)]; [set_solver|]. exists m. by rewrite <- elem_of_elements.
  - intros (m & Hm & H). right. exists m. by rewrite elem_of_elements.
Qed.

(** The inner loop: what it does to the two variables. *)
Lemma foldl_mark_word index line words match_lines text :
  foldl (mark_word index line) (match_lines, text) words =
  (if is_match words line then {[index]} ∪ match_lines else match_lines,
   foldl (λ new_content_line word,
            if PyStr.contains word line
            then PyStr.replace word (RED +:+ word +:+ RESET) new_content_line
            else new_content_line) text words).
Proof.
  revert match_lines text.
  induction words as [|word words IH]; intros match_lines text; [done|].
  simpl. destruct (PyStr.contains word line) eqn:Hc; simpl; rewrite IH.
  - destruct (is_match words line); f_equal; set_solver.
  - done.
Qed.

Lemma mark_lines_spec words lines index match_lines :
  (mark_lines words index lines match_lines).2 = map (highlight words) lines
  ∧ ∀ j, j ∈ (mark_lines words index lines match_lines).1 ↔
         j ∈ match_lines ∨
         ∃ k line, lines !! k = Some line ∧ j = index + Z.of_nat k
                   ∧ is_match words line = true.
Proof.
  revert index match_lines.
  induction lines as [|line rest IH]; intros index match_lines; simpl.
  - split; [done|]. intros j. split; [auto|].
    intros [?|(k & l & Hl & _)]; [done|]. by rewrite lookup_nil in Hl.
  - rewrite foldl_mark_word.
    match goal with |- context [mark_lines words (index + 1) rest ?ml] =>
      specialize (IH (index + 1) ml);
      destruct (mark_lines words (index + 1) rest ml) as [ml' rest'] end.
    simpl in *. destruct IH as [-> IH]. split; [done|].
    intros j. rewrite IH. split.
    + intros [Hj|(k & l & Hl & -> & Hm)].
      * destruct (is_match words line) eqn:Hm.
        -- apply elem_of_union in Hj as [->%elem_of_singleton|?]; [|by left].
           right. exists 0%nat, line. repeat split; [lia|done].
        -- by left.
      * right. exists (S k), l. repeat split; [done|lia|done].
    + intros [Hj|(k & l & Hl & -> & Hm)].
      * left. destruct (is_match words line); set_solver.
      * destruct k as [|k]; simpl in Hl.
        -- injection Hl as ->. rewrite Hm. left. set_solver by lia.
        -- right. exists k, l. repeat split; [done|lia|done].
Qed.

Lemma is_match_spec words line :
  is_match words line = true ↔
  ∃ word, word ∈ words ∧ PyStr.contains word line = true.
Proof.
  unfold is_match. rewrite existsb_exists.
  split; intros (word & Hw & Hc); exists word; split; try done;
    by apply list_elem_of_In.
Qed.

Lemma mark_lines_match words lines n :
  n ∈ (mark_lines words 0 lines ∅).1 ↔ match_line words lines n.
Proof.
  destruct (mark_lines_spec words lines 0 ∅) as [_ ->]. unfold match_line. split.
  - intros [?|(k & line & Hl & -> & Hm)]; [set_solver|].
    exists line. rewrite Z.add_0_l, Nat2Z.id. repeat split; [lia|done..].
  - intros (line & Hn & Hl & Hm). right. exists (Z.to_nat n), line.
    repeat split; [done|lia|done].
Qed.

(** [sorted]: ascending, without repetition, the members of the set. *)
Lemma elem_of_sorted s j : j ∈ sorted s ↔ j ∈ s.
Proof. unfold sorted. by rewrite merge_sort_Permutation, elem_of_elements. Qed.

Lemma sorted_ascending s : StronglySorted Z.lt (sorted s).
Proof.
  unfold sorted.
  assert (NoDup (merge_sort Z.le (elements s))) as Hnd.
  { rewrite merge_sort_Permutation. apply NoDup_elements. }
  pose proof (StronglySorted_merge_sort Z.le (elements s)) as Hs.
  induction Hs as [|x l Hl IH Hx]; [constructor|].
  apply NoDup_cons in Hnd as [Hxl Hnd]. constructor; [by apply IH|].
  rewrite Forall_forall in Hx |- *. intros y Hy.
  specialize (Hx y Hy). assert (x ≠ y) by (intros ->; done). lia.
Qed.

(** The printing loop, with the lines printed before it in [before]. *)
Lemma print_loop_from shown width last rest before :
  Forall (λ p, 0 ≤ p < Z.of_nat (length shown)) rest →
  print_loop shown width last rest =
  (concat (imap (λ k p, block width shown
                          ((before ++ [last]) ++ rest)
                          (length (before ++ [last]) + k) p) rest),
   Ok tt).
Proof.
  revert last before. induction rest as [|p rest IH]; intros last before Hr.
  { done. }
  apply Forall_cons in Hr as [Hp Hr]. cbn [print_loop].
  destruct (lookup_lt_is_Some_2 shown (Z.to_nat p)) as [content Hc]; [lia|].
  rewrite (py_index_ok _ _ content) by (done || lia).
  assert (gap ((before ++ [last]) ++ p :: rest) (length (before ++ [last]) + 0)
          = (1 <? p - last)) as Hgap.
  { rewrite length_app. simpl. rewrite Nat.add_0_r.
    replace (length before + 1)%nat with (S (length before)) by lia.
    simpl. rewrite <- (assoc_L (++)). simpl.
    rewrite (lookup_app_r before) by lia. rewrite Nat.sub_diag. simpl.
    replace (before ++ last :: p :: rest) with ((before ++ [last]) ++ p :: rest)
      by (by rewrite <- (assoc_L (++))).
    rewrite lookup_app_r by (rewrite length_app; simpl; lia).
    rewrite length_app. simpl.
    by replace (S (length before) - (length before + 1))%nat with 0%nat by lia. }
  specialize (IH p (before ++ [last]) Hr).
  replace (((before ++ [last]) ++ [p]) ++ rest)
    with ((before ++ [last]) ++ p :: rest) in IH
    by (by rewrite <- !(assoc_L (++))).
  simpl imap. simpl concat. unfold block at 1. rewrite Hgap.
  unfold context_line. rewrite Hc. simpl default.
  assert (∀ k, (length ((before ++ [last]) ++ [p]) + k
                = length (before ++ [last]) + S k)%nat) as Hlen.
  { intros k. rewrite !length_app. simpl. lia. }
  rewrite (imap_ext _ (λ k, block width shown ((before ++ [last]) ++ p :: rest)
                               (length ((before ++ [last]) ++ [p]) + k)))
    by (intros; by rewrite Hlen).
  destruct (1 <? p - last).
  - unfold print, print_end. rewrite !bind_emit, bind_ret_l, bind_emit, IH.
    done.
  - unfold print_end. rewrite !bind_ret_l, bind_emit, IH. done.
Qed.

Lemma print_loop_spec shown width p rest :
  Forall (λ p, 0 ≤ p < Z.of_nat (length shown)) (p :: rest) →
  print_loop shown width p (p :: rest) =
  (concat (imap (block width shown (p :: rest)) (p :: rest)), Ok tt).
Proof.
  intros Hr. pose proof Hr as [Hp Hr']%Forall_cons. cbn [print_loop].
  destruct (lookup_lt_is_Some_2 shown (Z.to_nat p)) as [content Hc]; [lia|].
  rewrite (py_index_ok _ _ content) by (done || lia).
  replace (1 <? p - p) with false by (symmetry; apply Z.ltb_ge; lia).
  unfold print_end. rewrite !bind_ret_l, bind_emit.
  rewrite (print_loop_from _ _ _ _ [] Hr'). simpl.
  unfold context_line. rewrite Hc. done.
Qed.

(** Every line to print has its numbered line in the report. *)
Lemma report_shows width shown ps p :
  p ∈ ps → context_line width shown p ∈ report width shown ps.
Proof.
  intros [k Hk]%list_elem_of_lookup. unfold report.
  apply elem_of_app. left. apply list_elem_of_In, in_concat.
  exists (block width shown ps k p). split; apply list_elem_of_In.
  - by apply (elem_of_lookup_imap_2 (block width shown ps)).
  - unfold block. apply elem_of_app. right. apply list_elem_of_here.
Qed.

Section with_world.
Context (w : World).

(** The reporter on a file that can be read: the exception of an empty
    set of lines to print, or the report of the lines to print. *)
Lemma print_words_context_run path words lines :
  readlines w path = Some lines →
  let shown := map (highlight words) lines in
  let ps := sorted (context_lines (Z.of_nat (length lines))
                      ((mark_lines words 0 lines ∅).1)) in
  print_words_context w path words =
  match ps with
  | [] => ([], Raise IndexError)
  | _ => (report (line_number_width lines) shown ps, Ok tt)
  end.
Proof.
intros Hread shown ps. unfold print_words_context. rewrite Hread, bind_ret_l.
destruct (mark_lines_spec words lines 0 ∅) as [Hshown Hmatch].
destruct (mark_lines words 0 lines ∅) as [match_lines shown'] eqn:Hml.
simpl in Hshown, Hmatch, ps. subst shown'. fold shown.
assert (length shown = length lines) as Hlen by (unfold shown; by rewrite length_map).
rewrite Hlen. fold ps.
assert (Forall (λ p, 0 ≤ p < Z.of_nat (length shown)) ps) as Hps.
{ apply Forall_forall. intros p Hp. unfold ps in Hp.
  apply elem_of_sorted, context_lines_spec in Hp as (m & Hm & Hp).
  apply Hmatch in Hm as [Hm|(k & line & Hl & -> & _)]; [set_solver|].
  apply lookup_lt_Some in Hl. lia. }
destruct ps as [|p rest] eqn:Hpseq.
- by rewrite py_index_nil.
- rewrite (py_index_ok _ _ p) by done. rewrite bind_ret_l.
  replace (line_number_width shown) with (line_number_width lines)
    by (unfold line_number_width; by rewrite Hlen).
  rewrite print_loop_spec by done. rewrite bind_ok. simpl. unfold report.
  unfold print, emit. simpl. done.
Qed.

End with_world.

End ReporterFacts.

Module ReporterClaims.
Import Reporter ReportSpec ReporterFacts.

Section with_world.
Context (w : World).

Lemma context_of_match words lines n i :
  match_line words lines n →
  n - 1 ≤ i ≤ n + 1 →
  i ∈ context_lines (Z.of_nat (length lines)) (mark_lines words 0 lines ∅).1
  ↔ (0 ≤ i < Z.of_nat (length lines)).
Proof.
  intros Hn Hi. rewrite context_lines_spec. split.
  - intros (m & Hm & Him). apply mark_lines_match in Hm as (line & ? & Hl & _).
    apply lookup_lt_Some in Hl. lia.
  - intros Hb. exists n. split; [by apply mark_lines_match|].
    destruct Hn as (line & ? & Hl & _). apply lookup_lt_Some in Hl. lia.
Qed.

Lemma some_context words lines n :
  match_line words lines n →
  sorted (context_lines (Z.of_nat (length lines))
            (mark_lines words 0 lines ∅).1) ≠ [].
Proof.
  intros Hn Hs. pose proof Hn as (line & ? & Hl & _).
  apply lookup_lt_Some in Hl.
  assert (n ∈ sorted (context_lines (Z.of_nat (length lines))
                        (mark_lines words 0 lines ∅).1)) as Hin.
  { apply elem_of_sorted. apply (context_of_match words lines n n); [done|lia..]. }
  rewrite Hs in Hin. by apply elem_of_nil in Hin.
Qed.

Lemma print_words_context_ok path words lines :
  readlines w path = Some lines →
  (∃ word line, word ∈ words ∧ line ∈ lines
                ∧ PyStr.contains word line = true) →
  outcome (print_words_context w path words) = Ok tt.
Proof.
  intros Hread (word & line & Hw & Hl & Hc).
  rewrite (print_words_context_run w path words lines Hread). simpl.
  apply list_elem_of_lookup in Hl as [k Hk].
  assert (match_line words lines (Z.of_nat k)) as Hn.
  { exists line. rewrite Nat2Z.id. repeat split; [lia|done|].
    apply existsb_exists. exists word. split; [|done].
    by apply list_elem_of_In. }
  pose proof (some_context words lines _ Hn) as Hne.
  by destruct (sorted _).
Qed.

(** C4. When line [n] (0-indexed) of the file is a match line, the report
    is printed with a numbered line for every index of [ps], and of the
    window [n-1], [n], [n+1] the list [ps] holds exactly the indices that
    are lines of the file: all three for a line that is neither first
    nor last, not [n-1] for the first line, not [n+1] for the last
    line. *)
Theorem context_window_clamped path words lines n :
  readlines w path = Some lines →
  match_line words lines n →
  let len := Z.of_nat (length lines) in
  ∃ ps,
    print_words_context w path words =
      (report (line_number_width lines) (map (highlight words) lines) ps,
       Ok tt)
    ∧ (∀ i, i ∈ ps →
            context_line (line_number_width lines)
              (map (highlight words) lines) i
            ∈ report (line_number_width lines)
                (map (highlight words) lines) ps)
    ∧ (∀ i, n - 1 ≤ i ≤ n + 1 → (i ∈ ps ↔ (0 ≤ i < len)))
    ∧ (0 < n < len - 1 → n - 1 ∈ ps ∧ n ∈ ps ∧ n + 1 ∈ ps)
    ∧ (n = 0 → (n - 1 ∉ ps) ∧ n ∈ ps ∧ (1 < len → n + 1 ∈ ps))
    ∧ (n = len - 1 → (1 < len → n - 1 ∈ ps) ∧ n ∈ ps ∧ (n + 1 ∉ ps)).
Proof.
  intros Hread Hn len.
  pose proof (print_words_context_run w path words lines Hread) as Hrun.
  simpl in Hrun. pose proof (some_context words lines n Hn) as Hne.
  set (ps := sorted _) in *. exists ps.
  assert (∀ i, n - 1 ≤ i ≤ n + 1 → (i ∈ ps ↔ (0 ≤ i < len))) as Hwin.
  { intros i Hi. unfold ps. rewrite elem_of_sorted.
    by apply (context_of_match words lines n i). }
  destruct Hn as (line & Hn0 & Hl & _). apply lookup_lt_Some in Hl.
  split; [by destruct ps|]. split; [intros i; apply report_shows|].
  split; [done|].
  repeat split; intros; rewrite ?Hwin; lia.
Qed.

(** C8. For a file in which some flagged word occurs, the reporter
    returns, and its output is [report] of the list of the lines to
    print in strictly ascending order: the context lines in ascending
    order of line index, a separator rule right before a line exactly
    when its index exceeds the index printed before it by more than 1,
    never before the first printed line. *)
Theorem ascending_with_gap_separators path words lines :
  readlines w path = Some lines →
  (∃ word line, word ∈ words ∧ line ∈ lines
                ∧ PyStr.contains word line = true) →
  ∃ ps,
    StronglySorted Z.lt ps
    ∧ (∀ i, i ∈ ps ↔
            i ∈ context_lines (Z.of_nat (length lines))
                  (mark_lines words 0 lines ∅).1)
    ∧ print_words_context w path words =
        (report (line_number_width lines)
           (map (highlight words) lines) ps, Ok tt).
Proof.
  intros Hread Hsome.
  pose proof (print_words_context_ok path words lines Hread Hsome) as Hok.
  rewrite (print_words_context_run w path words lines Hread) in Hok |- *.
  simpl in Hok |- *. set (ps := sorted _) in *. exists ps.
  split; [apply sorted_ascending|]. split; [intros i; apply elem_of_sorted|].
  by destruct ps.
Qed.

(** C10. On a file none of whose lines contains any of the words, the
    set of lines to print is empty and the reporter ends with an
    [IndexError], nothing printed; as soon as some word occurs in some
    line it returns normally. *)
Theorem no_match_raises_IndexError path words lines :
  readlines w path = Some lines →
  let print_lines :=
    context_lines (Z.of_nat (length lines)) (mark_lines words 0 lines ∅).1 in
  ((∀ word line, word ∈ words → line ∈ lines →
                 PyStr.contains word line = false) →
   print_lines = ∅
   ∧ print_words_context w path words = ([], Raise IndexError))
  ∧ ((∃ word line, word ∈ words ∧ line ∈ lines
                   ∧ PyStr.contains word line = true) →
     outcome (print_words_context w path words) = Ok tt).
Proof.
  intros Hread print_lines.
  pose proof (print_words_context_run w path words lines Hread) as Hrun.
  simpl in Hrun. fold print_lines in Hrun. split.
  - intros Hno. assert (print_lines = ∅) as Hempty.
    { apply set_eq. intros j. unfold print_lines.
      rewrite context_lines_spec. split; [|set_solver].
      intros (m & Hm & _). apply mark_lines_match in Hm as (line & _ & Hl & Hm).
      apply existsb_exists in Hm as (word & Hw & Hc).
      rewrite (Hno word line) in Hc; [done| |].
      - by apply list_elem_of_In.
      - by eapply list_elem_of_lookup_2. }
    split; [done|]. by rewrite Hrun, Hempty.
  - by apply print_words_context_ok.
Qed.

End with_world.

End ReporterClaims.

Module PyStrFacts.
Import PyStr.

Lemma str_app_cons c (s t : string) : String c s +:+ t = String c (s +:+ t).
Proof. reflexivity. Qed.

Lemma str_app_nil_l (s : string) : "" +:+ s = s.
Proof. reflexivity. Qed.

Lemma str_app_nil_r (s : string) : s +:+ "" = s.
Proof. induction s as [|c s IH]; [done|]. by rewrite str_app_cons, IH. Qed.

Lemma str_app_assoc (a b c : string) : a +:+ b +:+ c = (a +:+ b) +:+ c.
Proof. induction a as [|x a IH]; [done|]. by rewrite !str_app_cons, IH. Qed.

Lemma str_app_length (a b : string) :
  String.length (a +:+ b) = (String.length a + String.length b)%nat.
Proof. induction a as [|x a IH]; [done|]. rewrite str_app_cons. simpl. by rewrite IH. Qed.

Lemma startswith_spec p s :
  startswith p s = true ↔ ∃ rest, s = p +:+ rest.
Proof.
  revert s. induction p as [|a p IH]; intros s; simpl.
  - split; [by exists s|done].
  - destruct s as [|b s].
    + split; [done|]. by intros [rest [=]].
    + rewrite andb_true_iff, IH. split.
      * intros [->%Ascii.eqb_eq [rest ->]]. by exists rest.
      * intros [rest [= -> ->]]. split; [apply Ascii.eqb_refl|by exists rest].
Qed.

(** [w in s] holds exactly when [s] is [w] with something before and
    something after it: any substring counts, whatever is around it. *)
Lemma contains_spec w s :
  contains w s = true ↔ ∃ before after, s = before +:+ w +:+ after.
Proof.
  induction s as [|c s IH]; simpl.
  - rewrite orb_false_r, startswith_spec. split.
    + intros [rest ->]. by exists "", rest.
    + intros ([|??] & after & H); [by exists after|done].
  - rewrite orb_true_iff, startswith_spec, IH. split.
    + intros [[rest ->]|(before & after & ->)].
      * by exists "", rest.
      * by exists (String c before), after.
    + intros ([|c' before] & after & H).
      * left. by exists after.
      * right. injection H as -> ->. by exists before, after.
Qed.

Lemma all_space_lstrip s : all_space s = true ↔ lstrip s = "".
Proof.
  induction s as [|c s IH]; simpl; [done|].
  destruct (isspace c); simpl; [done|]. split; done.
Qed.

Lemma rstrip_nil_iff s : rstrip s = "" ↔ all_space s = true.
Proof.
  induction s as [|c s IH]; simpl; [done|].
  destruct (rstrip s) eqn:Hr.
  - destruct (isspace c); simpl; [|split; done].
    by rewrite <- IH.
  - split; [done|]. intros [_ H]%andb_true_iff. by apply IH in H.
Qed.

Lemma lstrip_head s c s' : lstrip s = String c s' → isspace c = false.
Proof.
  induction s as [|a s IH]; simpl; [done|].
  destruct (isspace a) eqn:Ha; [done|]. by intros [= <- _].
Qed.

(** [s.strip()] is empty exactly when [s] is empty or white space only. *)
Lemma strip_nil_iff s : strip s = "" ↔ all_space s = true.
Proof.
  unfold strip. rewrite rstrip_nil_iff. split.
  - intros H. apply all_space_lstrip. destruct (lstrip s) as [|c s'] eqn:Hl; [done|].
    apply lstrip_head in Hl. simpl in H. by rewrite Hl in H.
  - intros H. apply all_space_lstrip in H. by rewrite H.
Qed.

Lemma split_lines_not_nil s : split_lines s ≠ [].
Proof.
  destruct s as [|c s]; simpl; [done|].
  destruct (Ascii.eqb c newline); [done|]. by destruct (split_lines s).
Qed.

End PyStrFacts.

Lemma outcome_bind {A B} (m : M A) (k : A → M B) :
  outcome (bind m k) =
  match outcome m with Ok a => outcome (k a) | Raise e => Raise e end.
Proof. destruct m as [t [a|e]]; [|done]. rewrite bind_ok. done. Qed.

Lemma trace_bind {A B} (m : M A) (k : A → M B) :
  trace (bind m k) =
  trace m ++ match outcome m with Ok a => trace (k a) | Raise _ => [] end.
Proof.
  destruct m as [t [a|e]]; [by rewrite bind_ok|]. simpl. by rewrite app_nil_r.
Qed.

Lemma outcome_bind_ok {A B} (m : M A) (k : A → M B) a :
  outcome m = Ok a → outcome (bind m k) = outcome (k a).
Proof. intros H. by rewrite outcome_bind, H. Qed.

Lemma for_each_ok {A} (xs : list A) (body : A → M unit) :
  (∀ x, x ∈ xs → outcome (body x) = Ok tt) →
  outcome (for_each xs body) = Ok tt.
Proof.
  induction xs as [|x xs IH]; intros Hb; [done|]. simpl.
  rewrite outcome_bind, Hb by left. apply IH. intros y Hy. apply Hb. by right.
Qed.

Lemma for_each_print {A} (xs : list A) (f : A → string) :
  for_each xs (λ x, print (f x)) =
  (map (λ x, Stdout (f x +:+ String PyStr.newline "")) xs, Ok tt).
Proof.
  unfold print. induction xs as [|x xs IH]; [done|]. cbn [for_each].
  by rewrite bind_emit, IH.
Qed.

Module ScriptFacts.
Import Script ScriptSpec PyStrFacts.

Section with_world.
Context (w : World).

Lemma classify_spec path engine_out good_files bad_files :
  classify path engine_out (good_files, bad_files) =
  if PyStr.all_space engine_out
  then (good_files ++ [{| filepath := path; misspelled_words := [] |}],
        bad_files)
  else (good_files,
        bad_files ++
          [{| filepath := path;
              misspelled_words :=
                map PyStr.strip
                  (PyStr.split_lines (PyStr.strip engine_out)) |}]).
Proof.
  unfold classify.
  destruct (PyStr.all_space engine_out) eqn:Hs.
  - apply strip_nil_iff in Hs. by rewrite Hs.
  - destruct (String.eqb_spec (PyStr.strip engine_out) "") as [He|He]; [|done].
    apply strip_nil_iff in He. congruence.
Qed.

Lemma check_files_inv args filepaths good0 bad0 t good bad :
  check_files w args filepaths (good0, bad0) = (t, Ok (good, bad)) →
  ∃ good1 bad1,
    good = good0 ++ good1 ∧ bad = bad0 ++ bad1
    ∧ Forall (good_record w args) good1
    ∧ Forall (bad_record w args) bad1
    ∧ (filepath <$> good1) ++ (filepath <$> bad1) ≡ₚ filepaths.
Proof.
  revert good0 bad0 t.
  induction filepaths as [|path rest IH]; intros good0 bad0 t Hrun.
  - injection Hrun as _ <- <-. exists [], []. by rewrite !app_nil_r.
  - cbn [check_files] in Hrun.
    apply bind_Ok_inv in Hrun as (t1 & engine_out & t2 & Hs & Hrest & ->).
    rewrite classify_spec in Hrest.
    assert (outcome (spellcheck w args path) = Ok engine_out) as Hout
      by (by rewrite Hs).
    destruct (PyStr.all_space engine_out) eqn:Hspace.
    + apply IH in Hrest as (good1 & bad1 & -> & -> & Hg & Hb & Hp).
      exists ({| filepath := path; misspelled_words := [] |} :: good1), bad1.
      rewrite <- (assoc_L (++)). repeat split; [|done|].
      * constructor; [|done]. split; [done|]. by exists engine_out.
      * simpl. by rewrite Hp.
    + apply IH in Hrest as (good1 & bad1 & -> & -> & Hg & Hb & Hp).
      eexists good1, (_ :: bad1).
      rewrite <- (assoc_L (++)). repeat split; [done| |].
      * constructor; [|done]. split.
        -- simpl. intros Hnil%fmap_nil_inv. by apply split_lines_not_nil in Hnil.
        -- by exists engine_out.
      * rewrite fmap_cons. simpl. rewrite <- Hp.
        by rewrite <- Permutation_middle.
Qed.

Lemma in_good_files args good path :
  Forall (good_record w args) good → path ∈ filepath <$> good →
  ∃ engine_out, outcome (spellcheck w args path) = Ok engine_out
                ∧ PyStr.all_space engine_out = true.
Proof.
  intros Hg (cf & -> & Hcf)%list_elem_of_fmap.
  rewrite Forall_forall in Hg. by destruct (Hg cf Hcf) as [_ ?].
Qed.

Lemma in_bad_files args bad path :
  Forall (bad_record w args) bad → path ∈ filepath <$> bad →
  ∃ engine_out, outcome (spellcheck w args path) = Ok engine_out
                ∧ PyStr.all_space engine_out = false.
Proof.
  intros Hb (cf & -> & Hcf)%list_elem_of_fmap.
  rewrite Forall_forall in Hb.
  destruct (Hb cf Hcf) as [_ (out & ? & ? & _)]. by exists out.
Qed.

Lemma wrap_print_end_run text end_ :
  wrap_print_end w text end_ =
  ([Stdout (textwrap_fill w text TEXTWIDTH +:+ end_)], Ok tt).
Proof. done. Qed.

Lemma report_good_ok good bad : outcome (report_good w good bad) = Ok tt.
Proof.
  unfold report_good. destruct (negb (is_empty good)); [|done].
  rewrite outcome_bind.
  assert (∀ text, outcome (wrap_print w text) = Ok tt) as Hwp by done.
  destruct (1 <? _); rewrite Hwp, outcome_bind, for_each_print; simpl;
    by destruct (is_empty bad).
Qed.

Lemma wrap_print_ok text : outcome (wrap_print w text) = Ok tt.
Proof. done. Qed.

Lemma report_bad_file_ok cf :
  reportable w cf → outcome (report_bad_file w cf) = Ok tt.
Proof.
  intros (lines & word & line & Hread & Hw & Hl & Hc).
  unfold report_bad_file.
  rewrite (outcome_bind_ok _ _ tt) by apply wrap_print_ok.
  rewrite (outcome_bind_ok _ _ tt)
    by (apply (ReporterClaims.print_words_context_ok w _ _ lines Hread);
        by exists word, line).
  rewrite (outcome_bind_ok _ _ tt) by apply wrap_print_ok.
  rewrite (outcome_bind_ok _ _ tt) by (by rewrite for_each_print).
  done.
Qed.

Lemma report_bad_outcome args bad :
  outcome (report_bad w args bad) =
  match bad with
  | [] => Ok 0
  | _ => match outcome (for_each bad (report_bad_file w)) with
         | Ok _ => Ok 1
         | Raise e => Raise e
         end
  end.
Proof.
  unfold report_bad. destruct bad as [|cf bad]; [done|].
  cbn [is_empty negb].
  rewrite (outcome_bind_ok _ _ tt) by apply wrap_print_ok.
  rewrite outcome_bind.
  destruct (outcome (for_each (cf :: bad) (report_bad_file w))); done.
Qed.

Lemma main_outcome args t good bad :
  check_files w args (glob_glob w (files args)) ([], []) =
    (t, Ok (good, bad)) →
  outcome (main w args) = outcome (report_bad w args bad).
Proof.
  intros Hrun. unfold main.
  rewrite (outcome_bind_ok _ _ tt) by apply wrap_print_ok.
  rewrite (outcome_bind_ok _ _ (good, bad)) by (by rewrite Hrun).
  unfold aggregate. by rewrite (outcome_bind_ok _ _ tt) by apply report_good_ok.
Qed.

Lemma exit_status_spec args :
  exit_status w args =
  match outcome (main w args) with Ok code => code | Raise _ => 1 end.
Proof.
  unfold exit_status, script. destruct (main w args) as [t [code|[]]]; done.
Qed.

(** C2. After the loop over the files, every file is in exactly one of
    the two lists: in [good_files] exactly when the engine's output for
    it is empty or white space only, in [bad_files] otherwise; a good
    file's word list is empty, a bad file's is not. *)
Theorem files_partitioned args filepaths t good_files bad_files :
  check_files w args filepaths ([], []) = (t, Ok (good_files, bad_files)) →
  (∀ cf, cf ∈ good_files → misspelled_words cf = [])
  ∧ (∀ cf, cf ∈ bad_files → misspelled_words cf ≠ [])
  ∧ (filepath <$> good_files) ++ (filepath <$> bad_files) ≡ₚ filepaths
  ∧ ∀ path, path ∈ filepaths →
      ∃ engine_out,
        outcome (spellcheck w args path) = Ok engine_out
        ∧ (path ∈ filepath <$> good_files
           ↔ PyStr.all_space engine_out = true)
        ∧ (path ∈ filepath <$> bad_files
           ↔ PyStr.all_space engine_out = false)
        ∧ ¬ (path ∈ filepath <$> good_files
             ∧ path ∈ filepath <$> bad_files).
Proof.
  intros (good1 & bad1 & -> & -> & Hg & Hb & Hp)%check_files_inv.
  simpl. split; [|split; [|split; [done|]]].
  - intros cf Hcf. rewrite Forall_forall in Hg. by destruct (Hg cf Hcf).
  - intros cf Hcf. rewrite Forall_forall in Hb. by destruct (Hb cf Hcf).
  - intros path Hpath. rewrite <- Hp in Hpath.
    assert (∀ out1 out2,
              outcome (spellcheck w args path) = Ok out1 →
              outcome (spellcheck w args path) = Ok out2 → out1 = out2)
      as Hdet by (intros ?? ->; by intros [= ->]).
    apply elem_of_app in Hpath as [Hin|Hin].
    + destruct (in_good_files _ _ _ Hg Hin) as (out & Hout & Hs).
      exists out. split; [done|].
      assert (path ∉ filepath <$> bad1) as Hnot.
      { intros (out' & Hout' & Hs')%(in_bad_files _ _ _ Hb).
        rewrite (Hdet _ _ Hout Hout') in Hs. congruence. }
      repeat split; try done; try tauto. congruence.
    + destruct (in_bad_files _ _ _ Hb Hin) as (out & Hout & Hs).
      exists out. split; [done|].
      assert (path ∉ filepath <$> good1) as Hnot.
      { intros (out' & Hout' & Hs')%(in_good_files _ _ _ Hg).
        rewrite (Hdet _ _ Hout Hout') in Hs. congruence. }
      repeat split; try done; try tauto. congruence.
Qed.

(** C1. The exit code of a run whose files were all checked: 1 when
    some checked file has flagged words (the value [main] returns; when
    the reporter fails on a bad file instead, the uncaught exception ends
    the run with status 1 as well), 0 when none has. *)
Theorem exit_code_tells_bad_files args t good_files bad_files :
  check_files w args (glob_glob w (files args)) ([], []) =
    (t, Ok (good_files, bad_files)) →
  ((∃ cf, cf ∈ good_files ++ bad_files ∧ misspelled_words cf ≠ []) →
   exit_status w args = 1
   ∧ (outcome (main w args) = Ok 1 ∨ ∃ e, outcome (main w args) = Raise e)
   ∧ (Forall (reportable w) bad_files → outcome (main w args) = Ok 1))
  ∧ ((∀ cf, cf ∈ good_files ++ bad_files → misspelled_words cf = []) →
     outcome (main w args) = Ok 0 ∧ exit_status w args = 0).
Proof.
  intros Hrun. pose proof (main_outcome _ _ _ _ Hrun) as Hmain.
  rewrite report_bad_outcome in Hmain. rewrite exit_status_spec, Hmain.
  apply check_files_inv in Hrun as (good1 & bad1 & -> & -> & Hg & Hb & _).
  simpl. split.
  - intros (cf & Hcf & Hne).
    apply elem_of_app in Hcf as [Hcf|Hcf].
    { rewrite Forall_forall in Hg. by destruct (Hg cf Hcf). }
    destruct bad1 as [|cf' bad1]; [by apply elem_of_nil in Hcf|].
    split; [|split].
    + by destruct (outcome (for_each _ _)).
    + destruct (outcome (for_each _ _)); eauto.
    + intros Hok. rewrite for_each_ok; [done|].
      intros x Hx. apply report_bad_file_ok.
      rewrite Forall_forall in Hok. by apply Hok.
  - intros Hall. destruct bad1 as [|cf bad1]; [done|].
    rewrite Forall_cons in Hb. destruct Hb as [[Hne _] _].
    destruct Hne. apply Hall. apply elem_of_app. right. left.
Qed.

End with_world.
End ScriptFacts.

Module PrunerFacts.
Import Pruner PruneSpec PyStrFacts.

(** Induction on a tree, with the hypothesis for all the children. *)
Lemma node_induction (P : node → Prop) :
  (∀ text, P (NavigableString text)) →
  (∀ text, P (Comment text)) →
  (∀ text, P (ContainerString text)) →
  (∀ name attrs contents, Forall P contents → P (Tag name attrs contents)) →
  ∀ n, P n.
Proof.
  intros Hs Hc Hk Ht. fix IH 1. intros [text|text|text|name attrs contents].
  - apply Hs.
  - apply Hc.
  - apply Hk.
  - apply Ht. induction contents as [|c contents IHc]; constructor.
    + apply IH.
    + apply IHc.
Qed.

Lemma get_text_tag name attrs contents :
  get_text (Tag name attrs contents) = soup_text contents.
Proof. simpl. induction contents as [|c l IH]; [done|]. simpl. by rewrite IH. Qed.

Lemma node_links_tag name attrs contents :
  node_links (Tag name attrs contents) =
  (if is_link name
   then match attrs !! "href" with
        | Some url => [(get_text (Tag name attrs contents), url)]
        | None => []
        end
   else []) ++ links contents.
Proof.
  reflexivity.
Qed.

Lemma has_link_node_tag name attrs contents :
  has_link_node (Tag name attrs contents) = is_link name || has_link contents.
Proof.
  reflexivity.
Qed.

(** What the text of a link leaves out: a comment, and a string of the
    class of an [rt], [rp], [style], [script] or [template] tag. *)
Lemma link_text_leaves_out attrs name name_attrs text special note :
  flatten_node
    (Tag "a" attrs
       [NavigableString text; Tag name name_attrs [ContainerString special];
        Comment note])
  = NavigableString text.
Proof.
  simpl. by rewrite str_app_nil_r.
Qed.

(** Flattening the links keeps the text and leaves no link. *)
Lemma flatten_node_text n : get_text (flatten_node n) = get_text n.
Proof.
  induction n as [text|text|text|name attrs contents IH] using node_induction;
    [done..|].
  cbn [flatten_node]. destruct (is_link name); [done|].
  rewrite !get_text_tag. induction IH as [|c l Hc _ IHl]; [done|].
  simpl. by rewrite Hc, IHl.
Qed.

Lemma flatten_links_text s : soup_text (flatten_links s) = soup_text s.
Proof.
  induction s as [|n s IH]; [done|]. simpl. by rewrite flatten_node_text, IH.
Qed.

Lemma flatten_node_no_link n : has_link_node (flatten_node n) = false.
Proof.
  induction n as [text|text|text|name attrs contents IH] using node_induction;
    [done..|].
  cbn [flatten_node]. destruct (is_link name) eqn:Hname; [done|].
  rewrite has_link_node_tag, Hname. simpl.
  induction IH as [|c l Hc _ IHl]; [done|]. simpl. by rewrite Hc, IHl.
Qed.

Lemma flatten_links_no_link s : has_link (flatten_links s) = false.
Proof.
  induction s as [|n s IH]; [done|]. simpl. by rewrite flatten_node_no_link, IH.
Qed.

Lemma no_link_no_links_node n : has_link_node n = false → node_links n = [].
Proof.
  induction n as [text|text|text|name attrs contents IH] using node_induction;
    [done..|].
  rewrite has_link_node_tag, node_links_tag.
  intros [-> Hl]%orb_false_iff. simpl.
  induction IH as [|c l Hc _ IHl]; [done|].
  simpl in Hl. apply orb_false_iff in Hl as [Hc' Hl'].
  simpl. by rewrite Hc, IHl.
Qed.

Lemma no_link_no_links s : has_link s = false → links s = [].
Proof.
  induction s as [|n s IH]; [done|]. simpl.
  intros [Hn Hs]%orb_false_iff. by rewrite no_link_no_links_node, IH.
Qed.

(** The visible text of a link is part of the text of the tree. *)
Lemma contains_app_l w a b :
  PyStr.contains w a = true → PyStr.contains w (a +:+ b) = true.
Proof.
  rewrite !contains_spec. intros (before & after & ->).
  exists before, (after +:+ b). by rewrite <- !str_app_assoc.
Qed.

Lemma contains_app_r w a b :
  PyStr.contains w b = true → PyStr.contains w (a +:+ b) = true.
Proof.
  rewrite !contains_spec. intros (before & after & ->).
  exists (a +:+ before), after. by rewrite <- !str_app_assoc.
Qed.

Lemma contains_refl w : PyStr.contains w w = true.
Proof. apply contains_spec. exists "", "". by rewrite str_app_nil_r. Qed.

Lemma contains_trans a b c :
  PyStr.contains a b = true → PyStr.contains b c = true →
  PyStr.contains a c = true.
Proof.
  rewrite !contains_spec. intros (p & q & ->) (p' & q' & ->).
  exists (p' +:+ p), (q +:+ q'). by rewrite <- !str_app_assoc.
Qed.

Lemma node_link_text n text url :
  (text, url) ∈ node_links n → PyStr.contains text (get_text n) = true.
Proof.
  induction n as [?|?|?|name attrs contents IH] using node_induction;
    [by intros ?%elem_of_nil..|].
  rewrite node_links_tag, get_text_tag.
  intros [Hhere|Hbelow]%elem_of_app.
  - destruct (is_link name); [|by apply elem_of_nil in Hhere].
    destruct (attrs !! "href"); [|by apply elem_of_nil in Hhere].
    apply list_elem_of_singleton in Hhere as [= -> _].
    apply contains_refl.
  - induction IH as [|c l Hc _ IHl]; [by apply elem_of_nil in Hbelow|].
    simpl in Hbelow. apply elem_of_app in Hbelow as [Hin|Hin]; simpl.
    + by apply contains_app_l, Hc.
    + by apply contains_app_r, IHl.
Qed.

Lemma link_text_in_soup s text url :
  (text, url) ∈ links s → PyStr.contains text (soup_text s) = true.
Proof.
  induction s as [|n s IH]; [by intros ?%elem_of_nil|]. simpl.
  intros [Hin|Hin]%elem_of_app.
  - by eapply contains_app_l, node_link_text.
  - by apply contains_app_r, IH.
Qed.

(** The pattern step: what follows a removed match is white space. *)
Lemma strip_https_inside s :
  strip_https_go true s = "" ∨
  ∃ c rest, strip_https_go true s = String c rest ∧ PyStr.isspace c = true.
Proof.
  induction s as [|c s IH]; [by left|]. simpl.
  destruct (PyStr.isspace c) eqn:Hc; simpl; [|done].
  destruct c as [[] [] [] [] [] [] [] []]; try discriminate Hc;
    right; eexists _, _; (split; [done|]); done.
Qed.

Lemma startswith_nil_r p : PyStr.startswith p "" = true → p = "".
Proof. by destruct p. Qed.

Lemma startswith_strip_https p s :
  ScriptSpec.no_space p = true →
  PyStr.startswith p (strip_https_go false s) = true →
  PyStr.startswith p s = true.
Proof.
  revert p. induction s as [|c s IH]; intros p Hp; [done|].
  destruct p as [|a p]; [done|].
  simpl in Hp. apply andb_true_iff in Hp as [Ha Hp].
  cbn [strip_https_go andb].
  destruct (PyStr.startswith "https://" (String c s)) eqn:Hm.
  - destruct (strip_https_inside s) as [->|(c' & rest & -> & Hc')]; [done|].
    simpl. intros [->%Ascii.eqb_eq _]%andb_true_iff.
    by rewrite Hc' in Ha.
  - simpl. intros [-> Hrest]%andb_true_iff. simpl. by apply IH.
Qed.

(** After the pattern step no [https://] is left. *)
Lemma strip_https_go_clean inside s :
  PyStr.contains "https://" (strip_https_go inside s) = false.
Proof.
  revert inside. induction s as [|c s IH]; intros inside; [done|].
  cbn [strip_https_go].
  destruct (inside && negb (PyStr.isspace c)); [apply IH|].
  destruct (PyStr.startswith "https://" (String c s)) eqn:Hm; [apply IH|].
  cbn [PyStr.contains]. rewrite IH, orb_false_r.
  destruct (PyStr.startswith "https://" (String c (strip_https_go false s)))
    eqn:Hout; [|done].
  rewrite <- Hm. symmetry. apply startswith_strip_https; [done|].
  cbn [strip_https_go andb]. by rewrite Hm.
Qed.

Lemma strip_https_clean s :
  PyStr.contains "https://" (strip_https s) = false.
Proof. apply strip_https_go_clean. Qed.





(** Nor does a visible text in which [https://] occurs. *)
Lemma https_text_stripped text s :
  PyStr.contains "https://" text = true →
  PyStr.contains text (strip_https s) = false.
Proof.
  intros Hs. destruct (PyStr.contains text (strip_https s)) eqn:Hc; [|done].
  rewrite <- (strip_https_clean s). symmetry. by eapply contains_trans.
Qed.




(** Code inside a link is no part of the text that is kept for it. *)
Lemma code_in_link_removed attrs code_attrs code before after :
  flatten_links
    (decompose_all is_source_div
       (decompose_all is_code
          [Tag "a" attrs
             [NavigableString before; Tag "code" code_attrs code;
              NavigableString after]]))
  = [NavigableString (before +:+ after)].
Proof.
  unfold flatten_links, decompose_all. simpl.
  by rewrite str_app_nil_r.
Qed.

Section with_world.
Context (w : World).

Lemma run_checked_run cmd input failed :
  run_checked w cmd input failed =
  ([Run cmd input],
   if returncode (subprocess_run w cmd input) =? 0
   then Ok (subprocess_run w cmd input)
   else Raise (SpellcheckError (failed (subprocess_run w cmd input)))).
Proof.
  unfold run_checked. rewrite bind_emit. by destruct (_ =? 0).
Qed.

Lemma run_checked_outcome cmd input failed :
  outcome (run_checked w cmd input failed) =
  if returncode (subprocess_run w cmd input) =? 0
  then Ok (subprocess_run w cmd input)
  else Raise (SpellcheckError (failed (subprocess_run w cmd input))).
Proof. by rewrite run_checked_run. Qed.

Lemma run_checked_trace cmd input failed :
  trace (run_checked w cmd input failed) = [Run cmd input].
Proof. by rewrite run_checked_run. Qed.

(** A successful pruning: what was run, and what is returned. *)
Lemma prune_content_Ok path pruned :
  outcome (prune_content w path) = Ok pruned →
  pruned =
    proc_stdout
      (subprocess_run w to_markdown_cmd
         (Some (strip_https
                  (soup_str w (flatten_links (code_free w path)))))).
Proof.
  unfold prune_content. destruct (negb (path_exists w path)); [done|].
  rewrite outcome_bind, run_checked_outcome.
  destruct (_ =? 0); [|done]. cbv beta iota.
  rewrite outcome_bind, run_checked_outcome.
  destruct (_ =? 0); [|done]. by intros [= <-].
Qed.

(** The pruner raises nothing but a [SpellcheckError], and runs nothing
    but the converter. *)
Lemma prune_content_raises path e :
  outcome (prune_content w path) = Raise e → ∃ msg, e = SpellcheckError msg.
Proof.
  unfold prune_content. destruct (negb (path_exists w path)).
  { intros [= <-]. eauto. }
  rewrite outcome_bind, run_checked_outcome.
  destruct (_ =? 0); [|intros [= <-]; eauto]. cbv beta iota.
  rewrite outcome_bind, run_checked_outcome.
  destruct (_ =? 0); [done|intros [= <-]; eauto].
Qed.

Lemma prune_content_commands path :
  Forall (λ cmd, ScriptSpec.is_engine cmd = false)
    (ScriptSpec.commands (trace (prune_content w path))).
Proof.
  unfold prune_content. destruct (negb (path_exists w path)); [constructor|].
  rewrite trace_bind, run_checked_trace, run_checked_outcome.
  destruct (_ =? 0); cbv beta iota.
  - rewrite trace_bind, run_checked_trace, run_checked_outcome.
    destruct (_ =? 0); simpl; repeat constructor.
  - simpl. repeat constructor.
Qed.


(** Whatever the converter does: a link whose visible text spells out
    its URL cannot have the one kept and the other dropped. *)
Lemma url_in_link_text path text url pruned :
  (text, url) ∈ links (parsed w path) →
  PyStr.contains url text = true →
  outcome (prune_content w path) = Ok pruned →
  ¬ link_text_kept_url_dropped w path.
Proof.
  intros Hin Hsub Hrun Hclaim.
  destruct (Hclaim text url pruned Hin Hrun) as [Hkept Hdropped].
  by rewrite (contains_trans _ _ _ Hsub Hkept) in Hdropped.
Qed.

End with_world.


(** A URL that is no part of the visible text is not enough for the
    property as the specification states it. The link of [address.md]
    shows an address that starts with [https://]: the pattern step
    removes it from the text. *)
Lemma link_showing_an_address :
  PyStr.contains "https://example.org/page" "https://example.org" = false
  ∧ ¬ link_text_kept_url_dropped MoreDemo.world "address.md".
Proof.
  split; [reflexivity|]. intros Hclaim.
  destruct (Hclaim "https://example.org" "https://example.org/page"
              ("See " +:+ Demo.nl))
    as [Hkept _].
  - vm_compute. apply list_elem_of_here.
  - vm_compute. reflexivity.
  - vm_compute in Hkept. discriminate Hkept.
Qed.

(** The link of [code.md] shows code: it goes with the code of the
    document, before the link is replaced by its text. *)
Lemma link_showing_code :
  PyStr.contains "http://example.org/make" "make" = false
  ∧ ¬ link_text_kept_url_dropped MoreDemo.world "code.md".
Proof.
  split; [reflexivity|]. intros Hclaim.
  destruct (Hclaim "make" "http://example.org/make" ("Run ." +:+ Demo.nl))
    as [Hkept _].
  - vm_compute. apply list_elem_of_here.
  - vm_compute. reflexivity.
  - vm_compute in Hkept. discriminate Hkept.
Qed.

End PrunerFacts.

Module DictionaryFacts.
Import Script ScriptSpec ScriptFacts PrunerFacts.

Section with_world.
Context (w : World).

Lemma with_dictionary_missing args dict cmd :
  dictionary_path args = PyString dict → dict ≠ "" →
  path_exists w dict = false →
  with_dictionary w args cmd = raise (SpellcheckError DictionaryMissing).
Proof.
  intros Hd Hne Hex. unfold with_dictionary. rewrite Hd. simpl.
  destruct (String.eqb_spec dict ""); [done|]. simpl. by rewrite Hex.
Qed.

Lemma spellcheck_missing_dictionary args dict path :
  dictionary_path args = PyString dict → dict ≠ "" →
  path_exists w dict = false →
  spellcheck w args path =
  (trace (Pruner.prune_content w path),
   match outcome (Pruner.prune_content w path) with
   | Ok _ => Raise (SpellcheckError DictionaryMissing)
   | Raise e => Raise e
   end).
Proof.
  intros Hd Hne Hex. unfold spellcheck.
  destruct (Pruner.prune_content w path) as [t [pruned|e]]; [|done].
  rewrite bind_ok, (with_dictionary_missing _ dict) by done.
  simpl. by rewrite app_nil_r.
Qed.

(** C6, as the code has it. With a dictionary path that names no
    existing file and at least one file to check, the run ends at the
    first file: after pruning it, before the engine is run on any file.
    The exception is the [SpellcheckError] of the missing dictionary when
    the pruning succeeds, the pruning's own [SpellcheckError] otherwise;
    the exit status is 1. *)
Theorem missing_dictionary_stops_first_file args dict first rest :
  dictionary_path args = PyString dict → dict ≠ "" →
  path_exists w dict = false →
  glob_glob w (files args) = first :: rest →
  outcome (main w args) =
    match outcome (Pruner.prune_content w first) with
    | Ok _ => Raise (SpellcheckError DictionaryMissing)
    | Raise e => Raise e
    end
  ∧ (∃ msg, outcome (main w args) = Raise (SpellcheckError msg)
            ∧ script w args = (trace (main w args) ++ [Fatal msg], 1))
  ∧ exit_status w args = 1
  ∧ Forall (λ cmd, is_engine cmd = false) (commands (trace (main w args))).
Proof.
  intros Hd Hne Hex Hglob.
  assert (main w args =
          (trace (wrap_print w (BOLD +:+ "RUNNING SPELLCHECK" +:+ RESET))
             ++ trace (Pruner.prune_content w first),
           match outcome (Pruner.prune_content w first) with
           | Ok _ => Raise (SpellcheckError DictionaryMissing)
           | Raise e => Raise e
           end)) as Hmain.
  { unfold main. rewrite Hglob. cbn [check_files].
    rewrite (spellcheck_missing_dictionary _ dict) by done.
    unfold wrap_print at 1. rewrite wrap_print_end_run, bind_ok.
    destruct (outcome (Pruner.prune_content w first)); by simpl. }
  assert (∃ msg, outcome (main w args) = Raise (SpellcheckError msg)) as Hmsg.
  { rewrite Hmain. simpl.
    destruct (outcome (Pruner.prune_content w first)) as [?|e] eqn:Hp; [eauto|].
    apply prune_content_raises in Hp as [msg ->]. eauto. }
  split; [by rewrite Hmain|]. split; [|split].
  - destruct Hmsg as [msg Hmsg]. exists msg. split; [done|].
    unfold script. destruct (main w args) as [t r]. simpl in Hmsg.
    by rewrite Hmsg.
  - rewrite exit_status_spec. destruct Hmsg as [msg ->]. done.
  - rewrite Hmain. simpl. apply prune_content_commands.
Qed.

End with_world.

(** C6, as stated, fails: when the pattern matches no file the dictionary
    is never looked at, and the run ends with status 0. *)
Lemma missing_dictionary_without_files :
  ¬ missing_dictionary_is_fatal Demo.world
      (Demo.args_missing_dictionary "nothing.md").
Proof.
  intros Hclaim.
  destruct (Hclaim "missing.txt") as [_ Hstatus]; [reflexivity..|].
  vm_compute in Hstatus. discriminate.
Qed.

End DictionaryFacts.

Module WordListFacts.
Import Script ScriptSpec ScriptFacts PyStrFacts.

(** Round trip of the engine's output: tokens joined by newlines come back
    as they were listed. *)
Lemma token_inv c s :
  token (String c s) = true → PyStr.isspace c = false ∧ no_space s = true.
Proof.
  unfold token. simpl. intros [Hc Hs]%andb_true_iff.
  by apply negb_true_iff in Hc.
Qed.

Lemma rstrip_no_space s : no_space s = true → PyStr.rstrip s = s.
Proof.
  induction s as [|c s IH]; [done|]. simpl.
  intros [Hc%negb_true_iff Hs]%andb_true_iff. rewrite IH by done.
  destruct s; [by rewrite Hc|done].
Qed.

Lemma lstrip_token s : token s = true → PyStr.lstrip s = s.
Proof.
  destruct s as [|c s]; [done|]. intros [Hc _]%token_inv. simpl. by rewrite Hc.
Qed.

Lemma strip_token s : token s = true → PyStr.strip s = s.
Proof.
  intros Ht. unfold PyStr.strip. rewrite lstrip_token by done.
  apply rstrip_no_space. unfold token in Ht. by apply andb_true_iff in Ht as [_ ?].
Qed.

Lemma rstrip_app_token a b :
  token b = true → PyStr.rstrip (a +:+ b) = a +:+ b.
Proof.
  intros Hb. induction a as [|c a IH].
  - rewrite str_app_nil_l. apply rstrip_no_space.
    unfold token in Hb. by apply andb_true_iff in Hb as [_ ?].
  - rewrite str_app_cons. simpl. rewrite IH.
    destruct (a +:+ b) eqn:Hab; [|done].
    destruct a; [|done]. rewrite str_app_nil_l in Hab. by subst b.
Qed.

Lemma rstrip_app_space a b :
  PyStr.all_space b = true → PyStr.rstrip (a +:+ b) = PyStr.rstrip a.
Proof.
  intros Hb. induction a as [|c a IH].
  - rewrite str_app_nil_l. by apply rstrip_nil_iff.
  - rewrite str_app_cons. simpl. by rewrite IH.
Qed.

Lemma split_lines_no_space s : no_space s = true → PyStr.split_lines s = [s].
Proof.
  induction s as [|c s IH]; [done|]. simpl.
  intros [Hc%negb_true_iff Hs]%andb_true_iff. rewrite IH by done.
  destruct (Ascii.eqb_spec c PyStr.newline) as [->|]; done.
Qed.

Lemma split_lines_app s rest :
  no_space s = true →
  PyStr.split_lines (s +:+ String PyStr.newline rest) =
  s :: PyStr.split_lines rest.
Proof.
  induction s as [|c s IH]; [done|]. rewrite str_app_cons. simpl.
  intros [Hc%negb_true_iff Hs]%andb_true_iff. rewrite IH by done.
  destruct (Ascii.eqb_spec c PyStr.newline) as [->|]; done.
Qed.

Lemma token_no_space s : token s = true → no_space s = true.
Proof. unfold token. by intros [_ ?]%andb_true_iff. Qed.

Lemma join_lines_cons a b ws :
  PyStr.join_lines (a :: b :: ws) =
  a +:+ String PyStr.newline (PyStr.join_lines (b :: ws)).
Proof. reflexivity. Qed.

Lemma split_join ws :
  ws ≠ [] → Forall (λ word, token word = true) ws →
  PyStr.split_lines (PyStr.join_lines ws) = ws.
Proof.
  intros Hne Hws. induction Hws as [|word ws Hw Hws IH]; [done|].
  destruct ws as [|word' ws].
  - simpl. by apply split_lines_no_space, token_no_space.
  - rewrite join_lines_cons, split_lines_app by by apply token_no_space.
    by rewrite IH.
Qed.

Lemma join_ends_in_token ws :
  ws ≠ [] → Forall (λ word, token word = true) ws →
  ∃ a b, PyStr.join_lines ws = a +:+ b ∧ token b = true.
Proof.
  intros Hne Hws. induction Hws as [|word ws Hw Hws IH]; [done|].
  destruct ws as [|word' ws].
  - by exists "", word.
  - destruct IH as (a & b & Hab & Hb); [done|].
    exists (word +:+ String PyStr.newline a), b. split; [|done].
    rewrite join_lines_cons, Hab.
    by rewrite <- str_app_assoc, str_app_cons.
Qed.

Lemma join_starts_with_token ws :
  ws ≠ [] → Forall (λ word, token word = true) ws →
  ∃ c rest, PyStr.join_lines ws = String c rest ∧ PyStr.isspace c = false.
Proof.
  intros Hne Hws. destruct Hws as [|word ws Hw Hws]; [done|].
  destruct word as [|c word]; [done|]. apply token_inv in Hw as [Hc _].
  destruct ws; [by exists c, word|]. rewrite join_lines_cons.
  rewrite str_app_cons. by eexists c, _.
Qed.

Lemma strip_engine_output ws :
  ws ≠ [] → Forall (λ word, token word = true) ws →
  PyStr.strip (PyStr.join_lines ws +:+ String PyStr.newline "") =
  PyStr.join_lines ws.
Proof.
  intros Hne Hws. unfold PyStr.strip.
  destruct (join_starts_with_token ws Hne Hws) as (c & rest & Hj & Hc).
  assert (PyStr.lstrip (PyStr.join_lines ws +:+ String PyStr.newline "")
          = PyStr.join_lines ws +:+ String PyStr.newline "") as ->.
  { rewrite Hj, str_app_cons. simpl. by rewrite Hc. }
  rewrite rstrip_app_space by done.
  destruct (join_ends_in_token ws Hne Hws) as (a & b & -> & Hb).
  by apply rstrip_app_token.
Qed.

Lemma stored_as_listed ws :
  ws ≠ [] → Forall (λ word, token word = true) ws →
  map PyStr.strip
    (PyStr.split_lines
       (PyStr.strip (PyStr.join_lines ws +:+ String PyStr.newline ""))) = ws.
Proof.
  intros Hne Hws. rewrite strip_engine_output, split_join by done.
  induction Hws as [|word ws Hw Hws IH]; [done|]. simpl.
  rewrite strip_token by done. destruct ws; [done|]. by rewrite IH.
Qed.

Lemma distinct_spec words :
  NoDup (distinct words) ∧ ∀ word, word ∈ distinct words ↔ word ∈ words.
Proof.
  unfold distinct. split; [apply NoDup_elements|].
  intros word. by rewrite elem_of_elements, elem_of_list_to_set.
Qed.

Section with_world.
Context (w : World).

(** C9. The word list of a bad file is stored as the engine listed it,
    repeated words included; the report of the file hands that list to
    the context reporter as it is and then prints every distinct word of
    it exactly once. *)
Theorem words_listed_once :
  (∀ path ws lists,
     ws ≠ [] → Forall (λ word, token word = true) ws →
     classify path (PyStr.join_lines ws +:+ String PyStr.newline "") lists
     = (lists.1,
        lists.2 ++ [{| filepath := path; misspelled_words := ws |}]))
  ∧ (∀ bad_file,
       reportable w bad_file →
       ∃ heading t_context legend printed,
         report_bad_file w bad_file =
           (Stdout heading :: t_context
              ++ Stdout legend :: map word_line printed
              ++ [Stdout ("" +:+ String PyStr.newline "")],
            Ok tt)
         ∧ Reporter.print_words_context w (filepath bad_file)
             (misspelled_words bad_file) = (t_context, Ok tt)
         ∧ NoDup printed
         ∧ ∀ word, word ∈ printed ↔ word ∈ misspelled_words bad_file).
Proof.
  split.
  - intros path ws [good bad] Hne Hws. rewrite classify_spec.
    destruct (PyStr.all_space _) eqn:Hs.
    + apply strip_nil_iff in Hs. rewrite strip_engine_output in Hs by done.
      destruct (join_starts_with_token ws Hne Hws) as (c & rest & Hj & _).
      congruence.
    + by rewrite stored_as_listed.
  - intros bad_file (lines & word & line & Hread & Hw & Hl & Hc).
    pose proof (ReporterClaims.print_words_context_ok w _ _ lines Hread
                  (ex_intro _ word (ex_intro _ line (conj Hw (conj Hl Hc)))))
      as Hok.
    unfold report_bad_file, wrap_print.
    rewrite wrap_print_end_run, bind_ok.
    destruct (Reporter.print_words_context w _ _) as [t_context [[]|e]] eqn:Hrun;
      [|done].
    rewrite bind_ok, wrap_print_end_run, bind_ok, for_each_print, bind_ok.
    eexists _, t_context, _, (distinct (misspelled_words bad_file)).
    split; [reflexivity|]. split; [done|apply distinct_spec].
Qed.

End with_world.

End WordListFacts.

Module WidthFacts.
Import Reporter ReportSpec PyStrFacts.

Lemma pretty_N_go_length_ge x s :
  (String.length s ≤ String.length (pretty_N_go x s))%nat.
Proof.
  revert s. induction (N.lt_wf_0 x) as [x _ IH]. intros s.
  destruct (decide (x = 0)%N) as [->|Hx]; [by rewrite pretty_N_go_0|].
  rewrite pretty_N_go_step by lia.
  etrans; [|apply IH; apply N.div_lt; lia]. simpl. lia.
Qed.

Lemma pretty_N_go_length_mono x y s t :
  (x ≤ y)%N → (String.length s ≤ String.length t)%nat →
  (String.length (pretty_N_go x s) ≤ String.length (pretty_N_go y t))%nat.
Proof.
  revert x s t. induction (N.lt_wf_0 y) as [y _ IH]. intros x s t Hxy Hst.
  destruct (decide (x = 0)%N) as [->|Hx].
  - rewrite pretty_N_go_0. etrans; [done|apply pretty_N_go_length_ge].
  - rewrite (pretty_N_go_step x), (pretty_N_go_step y) by lia.
    apply IH; [apply N.div_lt; lia| |simpl; lia].
    apply N.Div0.div_le_mono. done.
Qed.

(** A larger positive integer has at least as many digits. *)
Lemma digits_mono a b : 0 < a ≤ b → (digits a ≤ digits b)%nat.
Proof.
  intros [Ha Hab]. destruct a as [|a|a]; [lia| |lia]. destruct b as [|b|b]; [lia| |lia].
  unfold digits, PyStr.str_int, pretty, pretty_Z, pretty, pretty_positive,
    pretty, pretty_N.
  rewrite !decide_False by done.
  apply pretty_N_go_length_mono; [lia|done].
Qed.

Lemma times_length c n : String.length (PyStr.times c n) = n.
Proof. induction n as [|n IH]; [done|]. simpl. by rewrite IH. Qed.

(** What the code does have: every line number of the file is printed in
    a field as wide as the number of lines plus one is long, padded with
    spaces on the left. *)
Lemma line_number_field lines p :
  0 ≤ p < Z.of_nat (length lines) →
  let width := line_number_width lines in
  width = digits (Z.of_nat (length lines) + 1)
  ∧ String.length (PyStr.format_int (p + 1) width) = width
  ∧ PyStr.format_int (p + 1) width =
      PyStr.times " "%char (width - digits (p + 1)) +:+ PyStr.str_int (p + 1).
Proof.
  intros Hp width. split; [done|]. split; [|done].
  unfold PyStr.format_int. rewrite str_app_length, times_length.
  assert (digits (p + 1) ≤ width)%nat by (apply digits_mono; lia).
  unfold digits in *. lia.
Qed.

(** C7. With nine lines the field is two characters wide, one more than
    the largest line number, 9, needs: line 1 is printed as [ 1:]. *)
Theorem width_of_nine_lines :
  length Demo.nine_lines = 9%nat
  ∧ line_number_width Demo.nine_lines = 2%nat
  ∧ digits (Z.of_nat (length Demo.nine_lines)) = 1%nat
  ∧ print_words_context Demo.world "nine.md" ["wrold"] =
      ([Stdout (BLUE +:+ " 1:" +:+ RESET +:+ " A " +:+ RED +:+ "wrold"
                +:+ RESET +:+ "." +:+ Demo.nl);
        Stdout (BLUE +:+ " 2:" +:+ RESET +:+ " More text." +:+ Demo.nl);
        Stdout Demo.nl],
       Ok tt).
Proof. repeat split; vm_compute; reflexivity. Qed.

End WidthFacts.

Module HighlightFacts.
Import Reporter ReportSpec PyStrFacts.

(** A word found in a line is wrapped in the copy made for that word
    alone. *)
Lemma replace_go_contains old new s :
  old ≠ "" →
  PyStr.contains old s = true →
  PyStr.contains new (PyStr.replace_go old new 0 s) = true.
Proof.
  intros Hold. induction s as [|c s IH]; simpl.
  - by destruct old.
  - destruct (PyStr.startswith old (String c s)) eqn:Hs; simpl.
    + intros _. apply PrunerFacts.contains_app_l, PrunerFacts.contains_refl.
    + intros H. rewrite IH by done. apply orb_true_r.
Qed.

Lemma single_word_wrapped word line :
  word ≠ "" → PyStr.contains word line = true →
  wrapped word (highlight [word] line) = true.
Proof.
  intros Hne Hc. unfold wrapped, highlight. simpl. rewrite Hc.
  destruct word as [|a word]; [done|]. by apply replace_go_contains.
Qed.

(** C5. Two flagged words of which one is part of the other: the line is
    a match line for both, yet in its printed copy the longer word is not
    wrapped, the marker of the shorter one cuts it in two. *)
Theorem overlapping_words_not_wrapped :
  let words := ["wrold"; "wroldly"] in
  let line := "It is wroldly." +:+ Demo.nl in
  Demo.overlap_lines !! 1%nat = Some line
  ∧ PyStr.contains "wrold" line = true
  ∧ PyStr.contains "wroldly" line = true
  ∧ highlight words line =
      "It is " +:+ RED +:+ "wrold" +:+ RESET +:+ "ly." +:+ Demo.nl
  ∧ wrapped "wrold" (highlight words line) = true
  ∧ wrapped "wroldly" (highlight words line) = false
  ∧ print_words_context Demo.world "overlap.md" words =
      ([Stdout (BLUE +:+ "1:" +:+ RESET +:+ " A " +:+ RED +:+ "wrold"
                +:+ RESET +:+ "." +:+ Demo.nl);
        Stdout (BLUE +:+ "2:" +:+ RESET +:+ " " +:+ highlight words line);
        Stdout Demo.nl],
       Ok tt).
Proof. repeat split; vm_compute; reflexivity. Qed.

End HighlightFacts.

(** ** The theorems at work on the concrete world *)

Module Runs.
Import Reporter ReportSpec Script ScriptSpec Pruner PruneSpec Demo.

Lemma bad_line_0_matches : match_line ["wrold"] Demo.bad_lines 0.
Proof.
  exists ("Hello wrold." +:+ Demo.nl).
  split; [lia|]. split; reflexivity.
Defined.

(** The scenario of the specification: three lines, [wrold] on the first;
    lines 1 and 2 are shown. *)
Lemma context_window_clamped_witness :
  readlines Demo.world "bad.md" = Some Demo.bad_lines
  ∧ match_line ["wrold"] Demo.bad_lines 0
  ∧ ∃ ps,
      print_words_context Demo.world "bad.md" ["wrold"] =
        (report (line_number_width Demo.bad_lines)
           (map (highlight ["wrold"]) Demo.bad_lines) ps, Ok tt)
      ∧ (-1 ∉ ps) ∧ 0 ∈ ps ∧ 1 ∈ ps.
Proof.
  split; [reflexivity|]. split; [exact bad_line_0_matches|].
  destruct (ReporterClaims.context_window_clamped Demo.world "bad.md"
              ["wrold"] Demo.bad_lines 0 eq_refl bad_line_0_matches)
    as (ps & Hrun & _ & _ & _ & Hfirst & _).
  exists ps. destruct (Hfirst eq_refl) as (Hbefore & Hn & Hafter).
  split; [exact Hrun|]. split; [exact Hbefore|]. split; [exact Hn|].
  apply Hafter. reflexivity.
Defined.

Lemma wrold_in_bad_lines :
  ∃ word line, word ∈ ["wrold"] ∧ line ∈ Demo.bad_lines
               ∧ PyStr.contains word line = true.
Proof.
  exists "wrold", ("Hello wrold." +:+ Demo.nl).
  split; [apply list_elem_of_here|].
  split; [apply list_elem_of_here|reflexivity].
Defined.

Lemma ascending_with_gap_separators_witness :
  readlines Demo.world "bad.md" = Some Demo.bad_lines
  ∧ ∃ ps,
      StronglySorted Z.lt ps
      ∧ print_words_context Demo.world "bad.md" ["wrold"] =
          (report (line_number_width Demo.bad_lines)
             (map (highlight ["wrold"]) Demo.bad_lines) ps, Ok tt).
Proof.
  split; [reflexivity|].
  destruct (ReporterClaims.ascending_with_gap_separators Demo.world "bad.md"
              ["wrold"] Demo.bad_lines eq_refl wrold_in_bad_lines)
    as (ps & Hsorted & _ & Hrun).
  exists ps. split; [exact Hsorted|exact Hrun].
Defined.

Lemma no_match_raises_IndexError_witness :
  readlines Demo.world "bad.md" = Some Demo.bad_lines
  ∧ print_words_context Demo.world "bad.md" ["zzz"] = ([], Raise IndexError).
Proof.
  split; [reflexivity|].
  destruct (ReporterClaims.no_match_raises_IndexError Demo.world "bad.md"
              ["zzz"] Demo.bad_lines eq_refl) as [Hnone _].
  apply Hnone. intros word line Hword Hline.
  apply list_elem_of_singleton in Hword as ->.
  repeat (apply elem_of_cons in Hline as [->|Hline]; [reflexivity|]).
  by apply elem_of_nil in Hline.
Defined.

Lemma files_partitioned_witness :
  ∃ t,
    check_files Demo.world (Demo.args "*.md") ["clean.md"; "bad.md"] ([], [])
      = (t, Ok ([clean_file], [bad_file]))
    ∧ (filepath <$> [clean_file]) ++ (filepath <$> [bad_file])
        ≡ₚ ["clean.md"; "bad.md"]
    ∧ ∀ cf, cf ∈ [bad_file] → misspelled_words cf ≠ [].
Proof.
  eassert (check_files Demo.world (Demo.args "*.md") ["clean.md"; "bad.md"]
             ([], []) = (_, Ok ([clean_file], [bad_file])))
    as Hrun by (vm_compute; reflexivity).
  destruct (ScriptFacts.files_partitioned Demo.world (Demo.args "*.md")
              _ _ _ _ Hrun) as (_ & Hbad & Hperm & _).
  eexists. split; [exact Hrun|]. split; [exact Hperm|exact Hbad].
Defined.

Lemma bad_file_reportable : reportable Demo.world bad_file.
Proof.
  exists Demo.bad_lines, "wrold", ("Hello wrold." +:+ Demo.nl).
  split; [reflexivity|]. split; [apply list_elem_of_here|].
  split; [apply list_elem_of_here|reflexivity].
Defined.

Lemma exit_code_tells_bad_files_witness :
  ∃ t,
    check_files Demo.world (Demo.args "*.md")
      (glob_glob Demo.world (files (Demo.args "*.md"))) ([], [])
      = (t, Ok ([clean_file], [bad_file]))
    ∧ exit_status Demo.world (Demo.args "*.md") = 1
    ∧ outcome (main Demo.world (Demo.args "*.md")) = Ok 1.
Proof.
  eassert (check_files Demo.world (Demo.args "*.md")
             (glob_glob Demo.world (files (Demo.args "*.md"))) ([], [])
           = (_, Ok ([clean_file], [bad_file])))
    as Hrun by (vm_compute; reflexivity).
  destruct (ScriptFacts.exit_code_tells_bad_files Demo.world
              (Demo.args "*.md") _ _ _ Hrun) as [Hsome _].
  destruct Hsome as (Hstatus & _ & Hmain).
  { exists bad_file. split; [|discriminate].
    apply elem_of_app. right. apply list_elem_of_here. }
  eexists. split; [exact Hrun|]. split; [exact Hstatus|].
  apply Hmain. constructor; [exact bad_file_reportable|constructor].
Defined.


Lemma missing_dictionary_stops_first_file_witness :
  dictionary_path (Demo.args_missing_dictionary "clean.md")
    = PyString "missing.txt"
  ∧ path_exists Demo.world "missing.txt" = false
  ∧ glob_glob Demo.world (files (Demo.args_missing_dictionary "clean.md"))
      = ["clean.md"]
  ∧ outcome (main Demo.world (Demo.args_missing_dictionary "clean.md"))
      = Raise (SpellcheckError DictionaryMissing)
  ∧ exit_status Demo.world (Demo.args_missing_dictionary "clean.md") = 1.
Proof.
  destruct (DictionaryFacts.missing_dictionary_stops_first_file Demo.world
              (Demo.args_missing_dictionary "clean.md") "missing.txt"
              "clean.md" [] eq_refl) as (Hmain & _ & Hstatus & _);
    [discriminate|reflexivity|reflexivity|].
  split; [reflexivity|]. split; [reflexivity|]. split; [reflexivity|].
  split; [exact Hmain|exact Hstatus].
Defined.

Lemma twice_file_reportable : reportable Demo.world twice_file.
Proof.
  exists Demo.twice_lines, "wrold", ("A wrold." +:+ Demo.nl).
  split; [reflexivity|]. split; [apply list_elem_of_here|].
  split; [apply list_elem_of_here|reflexivity].
Defined.

Lemma words_listed_once_witness :
  classify "twice.md" ("wrold" +:+ Demo.nl +:+ "wrold" +:+ Demo.nl) ([], [])
    = ([], [twice_file])
  ∧ ∃ t printed,
      report_bad_file Demo.world twice_file = (t, Ok tt)
      ∧ NoDup printed
      ∧ (∀ word, word ∈ printed ↔ word ∈ ["wrold"; "wrold"]).
Proof.
  destruct (WordListFacts.words_listed_once Demo.world) as [Hstore Hprint].
  split.
  - apply (Hstore "twice.md" ["wrold"; "wrold"] ([], [])); [discriminate|].
    repeat constructor.
  - destruct (Hprint twice_file twice_file_reportable)
      as (heading & t_context & legend & printed & Hrun & _ & Hnodup & Hsame).
    eexists _, printed. split; [exact Hrun|]. split; [exact Hnodup|exact Hsame].
Defined.

End Runs.

(** ** Further properties of the pruner *)

Module PrunerMore.
Import Pruner PruneSpec MoreSpec PyStrFacts PrunerFacts.

Lemma has_tag_node_tag p name attrs contents :
  has_tag_node p (Tag name attrs contents) = p name attrs || has_tag p contents.
Proof. reflexivity. Qed.

Lemma decompose_node_tag p name attrs contents :
  decompose_node p (Tag name attrs contents) =
  if p name attrs then [] else [Tag name attrs (decompose_all p contents)].
Proof. reflexivity. Qed.

Lemma has_tag_singleton p n : has_tag p [n] = has_tag_node p n.
Proof. unfold has_tag. simpl. apply orb_false_r. Qed.

Lemma decompose_all_cons p n s :
  decompose_all p (n :: s) = decompose_node p n ++ decompose_all p s.
Proof. reflexivity. Qed.

Lemma has_tag_cons p n s :
  has_tag p (n :: s) = has_tag_node p n || has_tag p s.
Proof. reflexivity. Qed.

Lemma has_tag_app p s1 s2 :
  has_tag p (s1 ++ s2) = has_tag p s1 || has_tag p s2.
Proof. apply existsb_app. Qed.

(** A removal leaves none of the tags it looks for, and brings in no tag
    of another kind. *)
Lemma decompose_node_removes p n : has_tag p (decompose_node p n) = false.
Proof.
  induction n as [?|?|?|name attrs contents IH] using node_induction; [done..|].
  rewrite decompose_node_tag. destruct (p name attrs) eqn:Hp; [done|].
  rewrite has_tag_singleton, has_tag_node_tag, Hp. cbn [orb].
  induction IH as [|c l Hc _ IHl]; [done|].
  by rewrite decompose_all_cons, has_tag_app, Hc, IHl.
Qed.

Lemma decompose_all_removes p s : has_tag p (decompose_all p s) = false.
Proof.
  induction s as [|n s IH]; [done|].
  by rewrite decompose_all_cons, has_tag_app, decompose_node_removes, IH.
Qed.

Lemma decompose_node_keeps_absent p q n :
  has_tag_node q n = false → has_tag q (decompose_node p n) = false.
Proof.
  induction n as [?|?|?|name attrs contents IH] using node_induction;
    [by intros _..|].
  rewrite has_tag_node_tag, decompose_node_tag.
  intros [Hq Hl]%orb_false_iff. destruct (p name attrs); [done|].
  rewrite has_tag_singleton, has_tag_node_tag, Hq. cbn [orb].
  induction IH as [|c l Hc _ IHl]; [done|].
  rewrite has_tag_cons in Hl. apply orb_false_iff in Hl as [Hc' Hl'].
  by rewrite decompose_all_cons, has_tag_app, Hc, IHl.
Qed.

Lemma decompose_all_keeps_absent p q s :
  has_tag q s = false → has_tag q (decompose_all p s) = false.
Proof.
  induction s as [|n s IH]; [done|]. rewrite has_tag_cons.
  intros [Hn Hs]%orb_false_iff.
  by rewrite decompose_all_cons, has_tag_app, decompose_node_keeps_absent, IH.
Qed.

Lemma decompose_node_absent p n :
  has_tag_node p n = false → decompose_node p n = [n].
Proof.
  induction n as [?|?|?|name attrs contents IH] using node_induction; [done..|].
  rewrite has_tag_node_tag, decompose_node_tag.
  intros [-> Hl]%orb_false_iff. do 2 f_equal.
  induction IH as [|c l Hc _ IHl]; [done|].
  rewrite has_tag_cons in Hl. apply orb_false_iff in Hl as [Hc' Hl'].
  by rewrite decompose_all_cons, Hc, IHl.
Qed.

Lemma decompose_all_absent p s :
  has_tag p s = false → decompose_all p s = s.
Proof.
  induction s as [|n s IH]; [done|]. rewrite has_tag_cons.
  intros [Hn Hs]%orb_false_iff.
  by rewrite decompose_all_cons, decompose_node_absent, IH.
Qed.

Lemma flatten_node_keeps_absent q n :
  has_tag_node q n = false → has_tag_node q (flatten_node n) = false.
Proof.
  induction n as [?|?|?|name attrs contents IH] using node_induction; [done..|].
  rewrite has_tag_node_tag. intros [Hq Hl]%orb_false_iff.
  cbn [flatten_node]. destruct (is_link name); [done|].
  rewrite has_tag_node_tag, Hq. cbn [orb].
  induction IH as [|c l Hc _ IHl]; [done|].
  rewrite has_tag_cons in Hl. apply orb_false_iff in Hl as [Hc' Hl'].
  cbn [map]. by rewrite has_tag_cons, Hc, IHl.
Qed.

Lemma flatten_links_keeps_absent q s :
  has_tag q s = false → has_tag q (flatten_links s) = false.
Proof.
  induction s as [|n s IH]; [done|]. rewrite has_tag_cons.
  intros [Hn Hs]%orb_false_iff. unfold flatten_links. cbn [map].
  rewrite has_tag_cons, flatten_node_keeps_absent by done.
  by apply IH.
Qed.

Lemma flatten_node_absent n :
  has_link_node n = false → flatten_node n = n.
Proof.
  induction n as [?|?|?|name attrs contents IH] using node_induction; [done..|].
  rewrite has_link_node_tag. intros [Hname Hl]%orb_false_iff.
  cbn [flatten_node]. rewrite Hname. f_equal.
  induction IH as [|c l Hc _ IHl]; [done|].
  simpl in Hl. apply orb_false_iff in Hl as [Hc' Hl'].
  simpl. by rewrite Hc, IHl.
Qed.

Lemma flatten_links_absent s : has_link s = false → flatten_links s = s.
Proof.
  induction s as [|n s IH]; [done|]. simpl.
  intros [Hn Hs]%orb_false_iff. by rewrite flatten_node_absent, IH.
Qed.

Lemma pruned_tree_clean s :
  has_tag is_code (pruned_tree s) = false
  ∧ has_tag is_source_div (pruned_tree s) = false
  ∧ has_link (pruned_tree s) = false.
Proof.
  unfold pruned_tree. split; [|split].
  - apply flatten_links_keeps_absent, decompose_all_keeps_absent,
      decompose_all_removes.
  - apply flatten_links_keeps_absent, decompose_all_removes.
  - apply flatten_links_no_link.
Qed.

Lemma pruned_tree_absent s :
  has_tag is_code s = false → has_tag is_source_div s = false →
  has_link s = false → pruned_tree s = s.
Proof.
  intros Hc Hd Hl. unfold pruned_tree.
  by rewrite (decompose_all_absent is_code), (decompose_all_absent is_source_div),
    flatten_links_absent.
Qed.

(** X2. After the three loops over the tree no inline code, no
    source-code block and no link is left; a tree that has none of them
    goes through unchanged; so pruning a pruned tree again changes
    nothing. *)
Theorem pruning_is_idempotent s :
  (has_tag is_code (pruned_tree s) = false
   ∧ has_tag is_source_div (pruned_tree s) = false
   ∧ has_link (pruned_tree s) = false)
  ∧ (has_tag is_code s = false → has_tag is_source_div s = false →
     has_link s = false → pruned_tree s = s)
  ∧ pruned_tree (pruned_tree s) = pruned_tree s.
Proof.
  split; [apply pruned_tree_clean|]. split; [apply pruned_tree_absent|].
  destruct (pruned_tree_clean s) as (Hc & Hd & Hl).
  by apply pruned_tree_absent.
Qed.

(** The pattern step. *)
Lemma contains_cons_false p c s :
  PyStr.contains p (String c s) = false →
  PyStr.startswith p (String c s) = false ∧ PyStr.contains p s = false.
Proof. cbn [PyStr.contains]. by intros ?%orb_false_iff. Qed.

Lemma strip_https_go_unchanged s :
  PyStr.contains "https://" s = false → strip_https_go false s = s.
Proof.
  induction s as [|c s IH]; [done|].
  intros [Hs Hc]%contains_cons_false.
  cbn [strip_https_go andb]. by rewrite Hs, IH.
Qed.

Lemma strip_https_go_token t rest :
  ScriptSpec.no_space t = true →
  strip_https_go true (t +:+ rest) = strip_https_go true rest.
Proof.
  induction t as [|c t IH]; [done|]. intros H. simpl in H.
  apply andb_true_iff in H as [Hc Ht]. rewrite str_app_cons.
  cbn [strip_https_go]. rewrite Hc. cbn [andb]. by apply IH.
Qed.

Lemma strip_https_go_space c rest :
  PyStr.isspace c = true →
  strip_https_go true (String c rest) = String c (strip_https_go false rest).
Proof.
  intros Hc. cbn [strip_https_go]. rewrite Hc. cbn [negb andb].
  assert (PyStr.startswith "https://" (String c rest) = false) as ->; [|done].
  change (PyStr.startswith "https://" (String c rest))
    with (Ascii.eqb "h" c && PyStr.startswith "ttps://" rest).
  destruct (Ascii.eqb_spec "h"%char c) as [<-|]; [|done].
  vm_compute in Hc. discriminate.
Qed.

(** X3. The pattern step leaves a text without [https://] as it is, and
    applying it twice is applying it once. *)
Theorem strip_https_idempotent s :
  (PyStr.contains "https://" s = false → strip_https s = s)
  ∧ strip_https (strip_https s) = strip_https s.
Proof.
  split; [apply strip_https_go_unchanged|].
  apply strip_https_go_unchanged, strip_https_clean.
Qed.

(** X4. A match of the pattern runs from [https://] to the next white
    space or the end of the text: whatever is glued to the URL, a closing
    tag for one, is removed with it. *)
Theorem strip_https_takes_whole_token t :
  ScriptSpec.no_space t = true →
  strip_https ("https://" +:+ t) = ""
  ∧ ∀ c rest, PyStr.isspace c = true →
      strip_https ("https://" +:+ t +:+ String c rest)
      = String c (strip_https rest).
Proof.
  intros Ht. unfold strip_https.
  assert (∀ rest, strip_https_go false ("https://" +:+ t +:+ rest)
                  = strip_https_go true rest) as Hgo.
  { intros rest.
    change ("https://" +:+ t +:+ rest)
      with (String "h" ("ttps://" +:+ t +:+ rest)).
    cbn [strip_https_go andb].
    assert (PyStr.startswith "https://" (String "h" ("ttps://" +:+ t +:+ rest))
            = true) as -> by done.
    rewrite str_app_assoc. apply strip_https_go_token.
    clear rest. induction t as [|c t IH]; [done|]. done. }
  split.
  - rewrite <- (str_app_nil_r t). by rewrite Hgo.
  - intros c rest Hc. by rewrite Hgo, strip_https_go_space.
Qed.

Section with_world.
Context (w : World).

Lemma prune_content_missing path :
  path_exists w path = false →
  prune_content w path = ([], Raise (SpellcheckError (NonExistentFile path))).
Proof. intros H. unfold prune_content. by rewrite H. Qed.

Lemma prune_content_success path pruned :
  outcome (prune_content w path) = Ok pruned →
  prune_content w path =
    ([Run (to_html_cmd path) None;
      Run to_markdown_cmd (Some (pruned_html w path))],
     Ok (pruned_markdown w path)).
Proof.
  unfold prune_content. destruct (negb (path_exists w path)); [done|].
  rewrite run_checked_run.
  destruct (returncode (subprocess_run w (to_html_cmd path) None) =? 0);
    [|by rewrite bind_raise].
  rewrite bind_ok, run_checked_run.
  fold (parsed w path). fold (code_free w path). fold (pruned_html w path).
  destruct (_ =? 0); [by rewrite bind_ok|by rewrite bind_raise].
Qed.

(** X1. What the pruner does to the outside. For a missing file it
    raises at once and runs nothing. Otherwise it runs the conversion to
    HTML; when that fails nothing else is run; when it succeeds the one
    other process is the conversion to markdown, fed the serialisation of
    the pruned tree with the [https://] tokens removed, and its output is
    the result. It prints nothing and raises only [SpellcheckError]. *)
Theorem prune_content_processes path :
  (path_exists w path = false →
   prune_content w path =
     ([], Raise (SpellcheckError (NonExistentFile path))))
  ∧ (path_exists w path = true →
     returncode (subprocess_run w (to_html_cmd path) None) ≠ 0 →
     prune_content w path =
       ([Run (to_html_cmd path) None],
        Raise (SpellcheckError (ToHtmlFailed path (to_html_cmd path)))))
  ∧ (path_exists w path = true →
     returncode (subprocess_run w (to_html_cmd path) None) = 0 →
     pruned_html w path =
       strip_https (soup_str w (pruned_tree (parsed w path)))
     ∧ prune_content w path =
         ([Run (to_html_cmd path) None;
           Run to_markdown_cmd (Some (pruned_html w path))],
          if returncode
               (subprocess_run w to_markdown_cmd
                  (Some (pruned_html w path))) =? 0
          then Ok (pruned_markdown w path)
          else Raise (SpellcheckError
                        (ToMarkdownFailed path to_markdown_cmd)))).
Proof.
  split; [apply prune_content_missing|]. split.
  - intros Hex Hrc. unfold prune_content. rewrite Hex. cbn [negb].
    rewrite run_checked_run.
    destruct (Z.eqb_spec (returncode (subprocess_run w (to_html_cmd path) None)) 0);
      [done|]. by rewrite bind_raise.
  - intros Hex Hrc. split; [done|].
    unfold prune_content. rewrite Hex. cbn [negb].
    rewrite run_checked_run, Hrc. cbn [Z.eqb]. rewrite bind_ok.
    rewrite run_checked_run.
    fold (parsed w path). fold (code_free w path). fold (pruned_html w path).
    destruct (_ =? 0); [by rewrite bind_ok|by rewrite bind_raise].
Qed.

End with_world.

End PrunerMore.

(** ** Further properties of the context reporter *)

Module ReporterMore.
Import Reporter ReportSpec MoreSpec PyStrFacts ReporterFacts.

Lemma highlight_from_no_match words line text :
  is_match words line = false →
  foldl (λ new_content_line word,
           if PyStr.contains word line
           then PyStr.replace word (RED +:+ word +:+ RESET) new_content_line
           else new_content_line)
        text words = text.
Proof.
  unfold is_match. revert text.
  induction words as [|word words IH]; intros text; [done|]. simpl.
  intros [-> Hrest]%orb_false_iff. by apply IH.
Qed.

Lemma highlight_no_match words line :
  is_match words line = false → highlight words line = line.
Proof. apply highlight_from_no_match. Qed.

Lemma report_all_stdout width shown ps :
  Forall (λ ev, is_stdout ev = true) (report width shown ps).
Proof.
  unfold report. apply Forall_app. split; [|by repeat constructor].
  apply Forall_forall. intros ev Hev.
  apply list_elem_of_In, in_concat in Hev as (blk & Hblk & Hev).
  apply list_elem_of_In, elem_of_lookup_imap in Hblk as (k & p & -> & _).
  apply list_elem_of_In in Hev. unfold block in Hev.
  apply elem_of_app in Hev as [Hev|Hev].
  - destruct (gap ps k); [|by apply elem_of_nil in Hev].
    by apply list_elem_of_singleton in Hev as ->.
  - by apply list_elem_of_singleton in Hev as ->.
Qed.

Lemma seqZ_ascending m n : StronglySorted Z.lt (seqZ m n).
Proof.
  destruct (decide (n ≤ 0)) as [Hn|Hn]; [rewrite seqZ_nil by done; constructor|].
  replace n with (Z.of_nat (Z.to_nat n)) by lia.
  generalize (Z.to_nat n) as k. clear. intros k. revert m.
  induction k as [|k IH]; intros m; [rewrite seqZ_nil by done; constructor|].
  rewrite seqZ_cons by lia. constructor.
  - replace (Z.pred (Z.of_nat (S k))) with (Z.of_nat k) by lia. apply IH.
  - apply Forall_forall. intros x Hx%elem_of_seqZ. lia.
Qed.

Lemma gap_seqZ n k : gap (seqZ 0 n) k = false.
Proof.
  destruct k as [|k]; [done|]. simpl.
  destruct (seqZ 0 n !! k) as [a|] eqn:Ha; [|done].
  destruct (seqZ 0 n !! S k) as [b|] eqn:Hb; [|done].
  apply lookup_seqZ in Ha as [-> _]. apply lookup_seqZ in Hb as [-> _].
  apply Z.ltb_ge. lia.
Qed.

Lemma report_seqZ width shown n :
  report width shown (seqZ 0 n) =
  (context_line width shown <$> seqZ 0 n)
  ++ [Stdout ("" +:+ String PyStr.newline "")].
Proof.
  unfold report. f_equal.
  rewrite (imap_ext _ (const (λ p, [context_line width shown p]))).
  - rewrite imap_const. generalize (seqZ 0 n) as l.
    induction l as [|p l IH]; [done|]. rewrite !fmap_cons. cbn [concat app].
    by rewrite IH.
  - intros k p _. unfold block. by rewrite gap_seqZ.
Qed.

Section with_world.
Context (w : World).

Lemma print_words_context_unreadable path words :
  readlines w path = None →
  print_words_context w path words
  = ([], Raise (read_exception (read_failure w path))).
Proof. intros H. unfold print_words_context. by rewrite H. Qed.

Lemma reporter_trace_stdout path words :
  Forall (λ ev, is_stdout ev = true)
    (trace (print_words_context w path words)).
Proof.
  destruct (readlines w path) as [lines|] eqn:Hread.
  - rewrite (print_words_context_run w path words lines Hread). simpl.
    destruct (sorted _); [constructor|apply report_all_stdout].
  - rewrite print_words_context_unreadable by done. constructor.
Qed.

Lemma print_words_context_no_match path words lines :
  readlines w path = Some lines →
  (∀ word line, word ∈ words → line ∈ lines →
                PyStr.contains word line = false) →
  print_words_context w path words = ([], Raise IndexError).
Proof.
  intros Hread Hno.
  rewrite (print_words_context_run w path words lines Hread). simpl.
  destruct (sorted _) as [|p ps] eqn:Hs; [done|].
  assert (p ∈ sorted (context_lines (Z.of_nat (length lines))
                        (mark_lines words 0 lines ∅).1)) as Hp
    by (rewrite Hs; left).
  apply elem_of_sorted, context_lines_spec in Hp as (m & Hm & _).
  apply mark_lines_match in Hm as (line & _ & Hl & Hm).
  apply is_match_spec in Hm as (word & Hw & Hc).
  rewrite (Hno word line) in Hc; [done..|]. by eapply list_elem_of_lookup_2.
Qed.

(** X5. The reporter prints a whole report or nothing. When the file
    cannot be read it raises what [open(...).readlines()] raised, which
    is [OSError] for a file that cannot be opened and
    [UnicodeDecodeError] for one whose bytes do not decode. Whenever it
    raises, the exception is one of these two or [IndexError], and
    nothing has been printed. It never runs a process. *)
Theorem reporter_all_or_nothing path words :
  (readlines w path = None →
   print_words_context w path words
   = ([], Raise (match read_failure w path with
                 | CannotOpen => OSError
                 | CannotDecode => UnicodeDecodeError
                 end)))
  ∧ (∀ e, outcome (print_words_context w path words) = Raise e →
          print_words_context w path words = ([], Raise e)
          ∧ (e = OSError ∨ e = UnicodeDecodeError ∨ e = IndexError))
  ∧ Forall (λ ev, is_stdout ev = true)
      (trace (print_words_context w path words)).
Proof.
  split; [apply print_words_context_unreadable|].
  split; [|apply reporter_trace_stdout].
  intros e. destruct (readlines w path) as [lines|] eqn:Hread.
  - rewrite (print_words_context_run w path words lines Hread). simpl.
    destruct (sorted _); [|done]. intros [= <-]. eauto.
  - rewrite print_words_context_unreadable by done. intros [= <-].
    split; [done|]. destruct (read_failure w path); eauto.
Qed.

(** X6. The lines of a report are the lines of the file at distance at
    most 1 from a match line, and no others; a shown line that contains
    none of the words is printed as it is in the file. *)
Theorem printed_lines_near_matches path words lines :
  readlines w path = Some lines →
  (∃ word line, word ∈ words ∧ line ∈ lines
                ∧ PyStr.contains word line = true) →
  ∃ ps,
    print_words_context w path words =
      (report (line_number_width lines) (map (highlight words) lines) ps,
       Ok tt)
    ∧ (∀ i, i ∈ ps ↔
            (0 ≤ i < Z.of_nat (length lines))
            ∧ ∃ m, match_line words lines m ∧ m - 1 ≤ i ≤ m + 1)
    ∧ (∀ i line, 0 ≤ i → lines !! Z.to_nat i = Some line →
                 is_match words line = false →
                 map (highlight words) lines !! Z.to_nat i = Some line).
Proof.
  intros Hread Hsome.
  pose proof (ReporterClaims.print_words_context_ok w path words lines
                Hread Hsome) as Hok.
  rewrite (print_words_context_run w path words lines Hread) in Hok |- *.
  simpl in Hok |- *. set (ps := sorted _) in *. exists ps.
  split; [by destruct ps|]. split.
  - intros i. unfold ps. rewrite elem_of_sorted, context_lines_spec. split.
    + intros (m & Hm%mark_lines_match & Hi). pose proof Hm as (l & ? & Hl & _).
      apply lookup_lt_Some in Hl. split; [lia|]. exists m. split; [done|lia].
    + intros (Hi & m & Hm & Him). exists m.
      split; [by apply mark_lines_match|lia].
  - intros i line Hi Hl Hno. rewrite list_lookup_fmap, Hl. simpl.
    by rewrite highlight_no_match.
Qed.

(** X7. When the empty string is among the words (the engine's output
    had a blank line between two words), every line of the file is a
    match line: the whole file is printed, line after line, without any
    separator. *)
Theorem empty_word_prints_whole_file path words lines :
  readlines w path = Some lines → lines ≠ [] → "" ∈ words →
  print_words_context w path words =
    ((context_line (line_number_width lines) (map (highlight words) lines)
        <$> seqZ 0 (Z.of_nat (length lines)))
     ++ [Stdout ("" +:+ String PyStr.newline "")],
     Ok tt).
Proof.
  intros Hread Hne Hempty.
  assert (∀ n, 0 ≤ n < Z.of_nat (length lines) → match_line words lines n)
    as Hall.
  { intros n Hn.
    destruct (lookup_lt_is_Some_2 lines (Z.to_nat n)) as [line Hl]; [lia|].
    exists line. repeat split; [lia|done|].
    apply is_match_spec. exists "". split; [done|]. by destruct line. }
  rewrite (print_words_context_run w path words lines Hread). simpl.
  set (ps := sorted _).
  assert (∀ i, i ∈ ps ↔ i ∈ seqZ 0 (Z.of_nat (length lines))) as Hmem.
  { intros i. unfold ps.
    rewrite elem_of_sorted, context_lines_spec, elem_of_seqZ. split.
    - intros (m & Hm%mark_lines_match & Hi). destruct Hm as (l & ? & Hl & _).
      apply lookup_lt_Some in Hl. lia.
    - intros Hi. exists i. split; [|by left].
      apply mark_lines_match, Hall. lia. }
  assert (ps = seqZ 0 (Z.of_nat (length lines))) as ->.
  { apply (StronglySorted_unique_strong Z.lt).
    - intros; lia.
    - apply sorted_ascending.
    - apply seqZ_ascending.
    - apply NoDup_Permutation; [|apply NoDup_seqZ|done].
      unfold ps, sorted. rewrite merge_sort_Permutation. apply NoDup_elements. }
  rewrite report_seqZ.
  destruct (seqZ 0 (Z.of_nat (length lines))) eqn:Hseq; [|done].
  destruct lines; [done|]. by rewrite seqZ_cons in Hseq by (simpl; lia).
Qed.

(** X16. With one flagged word, not empty, every line that contains it
    is shown, and its printed copy contains the word wrapped in the
    highlight marker. *)
Theorem lone_word_is_wrapped path word lines n line :
  readlines w path = Some lines → word ≠ "" →
  0 ≤ n → lines !! Z.to_nat n = Some line →
  PyStr.contains word line = true →
  ∃ ps,
    print_words_context w path [word] =
      (report (line_number_width lines) (map (highlight [word]) lines) ps,
       Ok tt)
    ∧ n ∈ ps
    ∧ map (highlight [word]) lines !! Z.to_nat n
      = Some (highlight [word] line)
    ∧ wrapped word (highlight [word] line) = true.
Proof.
  intros Hread Hne Hn Hline Hc.
  assert (match_line [word] lines n) as Hm.
  { exists line. repeat split; [done..|]. simpl. by rewrite Hc. }
  pose proof (ReporterClaims.some_context [word] lines n Hm) as Hsome.
  rewrite (print_words_context_run w path [word] lines Hread). simpl.
  set (ps := sorted _) in *. exists ps. split; [by destruct ps|].
  split; [|split].
  - apply elem_of_sorted, context_lines_spec. exists n.
    split; [by apply mark_lines_match|by left].
  - by rewrite list_lookup_fmap, Hline.
  - by apply HighlightFacts.single_word_wrapped.
Qed.

End with_world.

(** X17. A line is marked a match line exactly when it is some flagged
    word with something, possibly nothing, before and after it: any
    occurrence counts, inside a longer word too, and letter case
    matters since the characters must be equal. *)
Theorem match_lines_are_substring_hits words lines n :
  n ∈ (mark_lines words 0 lines ∅).1 ↔
  ∃ line word before after,
    0 ≤ n ∧ lines !! Z.to_nat n = Some line
    ∧ word ∈ words ∧ line = before +:+ word +:+ after.
Proof.
  rewrite mark_lines_match. unfold match_line. split.
  - intros (line & Hn & Hl & (word & Hw & Hc)%is_match_spec).
    apply contains_spec in Hc as (before & after & ->).
    by exists (before +:+ word +:+ after), word, before, after.
  - intros (line & word & before & after & Hn & Hl & Hw & ->).
    eexists. repeat split; [done..|]. apply is_match_spec.
    exists word. split; [done|]. apply contains_spec. eauto.
Qed.

(** X8. The text of every printed line starts in the same column: for a
    line of the file, the line number is padded to the width of the
    number of lines plus one, so what comes before the text has the same
    length for all of them. *)
Theorem line_numbers_aligned lines p content :
  0 ≤ p < Z.of_nat (length lines) →
  String.length (numbered (line_number_width lines) p content) =
  (decoration + line_number_width lines + String.length content)%nat.
Proof.
  intros Hp.
  destruct (WidthFacts.line_number_field lines p Hp) as (_ & Hlen & _).
  unfold numbered, decoration. rewrite !str_app_length, Hlen. simpl. lia.
Qed.

End ReporterMore.

(** ** Further properties of the driver *)

Lemma trace_bind_all {A B} (P : event → Prop) (m : M A) (k : A → M B) :
  Forall P (trace m) → (∀ a, Forall P (trace (k a))) →
  Forall P (trace (bind m k)).
Proof.
  intros Hm Hk. rewrite trace_bind. apply Forall_app. split; [done|].
  destruct (outcome m); [apply Hk|constructor].
Qed.

Lemma trace_for_each_all {A} (P : event → Prop) (xs : list A)
    (body : A → M unit) :
  (∀ x, Forall P (trace (body x))) → Forall P (trace (for_each xs body)).
Proof.
  intros Hb. induction xs as [|x xs IH]; [constructor|].
  cbn [for_each]. by apply trace_bind_all.
Qed.

Module StripMore.
Import PyStr MoreSpec PyStrFacts.

Lemma rstrip_head c s :
  rstrip (String c s) = "" ∨ ∃ r, rstrip (String c s) = String c r.
Proof.
  simpl. destruct (rstrip s); [|eauto]. destruct (isspace c); eauto.
Qed.

Lemma rstrip_idempotent s : rstrip (rstrip s) = rstrip s.
Proof.
  induction s as [|c s IH]; [done|]. simpl.
  destruct (rstrip s) as [|a r] eqn:Hr.
  - destruct (isspace c) eqn:Hc; [done|]. simpl. by rewrite Hc.
  - change (rstrip (String c (String a r)))
      with (match rstrip (String a r) with
            | "" => if isspace c then "" else String c ""
            | r' => String c r'
            end).
    by rewrite IH.
Qed.

Lemma lstrip_unchanged c s :
  isspace c = false → lstrip (String c s) = String c s.
Proof. intros H. simpl. by rewrite H. Qed.

(** [strip] twice is [strip] once. *)
Lemma strip_idempotent s : strip (strip s) = strip s.
Proof.
  unfold strip. destruct (lstrip s) as [|c t] eqn:Hl; [done|].
  pose proof (lstrip_head _ _ _ Hl) as Hc.
  destruct (rstrip_head c t) as [->|[r Hr]]; [done|].
  rewrite Hr, lstrip_unchanged by done. rewrite <- Hr. apply rstrip_idempotent.
Qed.

Lemma has_char_lstrip c s :
  has_char c s = false → has_char c (lstrip s) = false.
Proof.
  induction s as [|a s IH]; [done|]. simpl.
  intros [Ha Hs]%orb_false_iff. destruct (isspace a); [by apply IH|].
  simpl. by rewrite Ha, Hs.
Qed.

Lemma has_char_rstrip c s :
  has_char c s = false → has_char c (rstrip s) = false.
Proof.
  induction s as [|a s IH]; [done|]. simpl.
  intros [Ha Hs]%orb_false_iff. specialize (IH Hs).
  destruct (rstrip s) as [|b r].
  - destruct (isspace a); [done|]. simpl. by rewrite Ha.
  - simpl in IH |- *. by rewrite Ha, IH.
Qed.

Lemma split_lines_pieces s :
  Forall (λ piece, has_char newline piece = false) (split_lines s).
Proof.
  induction s as [|c s IH]; [by repeat constructor|]. simpl.
  destruct (Ascii.eqb c newline) eqn:Hc; [by constructor|].
  destruct (split_lines s) as [|piece pieces]; [by repeat constructor; simpl; rewrite Hc|].
  apply Forall_cons in IH as [Hp Hps]. constructor; [|done].
  simpl. by rewrite Hc, Hp.
Qed.

(** The engine's output with a blank line in it. *)
Lemma join_lines_cons_cons a b l :
  join_lines (a :: b :: l) = a +:+ String newline (join_lines (b :: l)).
Proof. reflexivity. Qed.

Lemma split_join_lines l :
  l ≠ [] → Forall (λ piece, ScriptSpec.no_space piece = true) l →
  split_lines (join_lines l) = l.
Proof.
  intros Hne Hl. induction Hl as [|piece l Hp Hl IH]; [done|].
  destruct l as [|piece' l].
  - simpl. by apply WordListFacts.split_lines_no_space.
  - rewrite join_lines_cons_cons, WordListFacts.split_lines_app by done.
    by rewrite IH.
Qed.

Lemma join_lines_snoc l b : ∃ a, join_lines (l ++ [b]) = a +:+ b.
Proof.
  induction l as [|x l [a IH]]; [by exists ""|].
  destruct l as [|y l].
  - exists (x +:+ String newline ""). simpl.
    by rewrite <- str_app_assoc, str_app_cons.
  - exists (x +:+ String newline a).
    change ((x :: y :: l) ++ [b]) with (x :: y :: (l ++ [b])).
    rewrite join_lines_cons_cons.
    change (y :: l ++ [b]) with ((y :: l) ++ [b]). rewrite IH.
    by rewrite <- str_app_assoc, str_app_cons.
Qed.

Lemma strip_blank_between ws1 ws2 :
  ws1 ≠ [] → ws2 ≠ [] →
  Forall (λ word, ScriptSpec.token word = true) ws1 →
  Forall (λ word, ScriptSpec.token word = true) ws2 →
  strip (join_lines (ws1 ++ "" :: ws2) +:+ String newline "")
  = join_lines (ws1 ++ "" :: ws2).
Proof.
  intros Hne1 Hne2 Hws1 Hws2. unfold strip.
  destruct ws1 as [|[|c word] ws1]; [done| |].
  { by apply Forall_cons in Hws1 as [? _]. }
  apply Forall_cons in Hws1 as [[Hc _]%WordListFacts.token_inv _].
  assert (∃ rest, join_lines ((String c word :: ws1) ++ "" :: ws2)
                  = String c rest) as [rest Hj].
  { destruct ws1; eexists; [rewrite <- app_comm_cons, app_nil_l|
                            rewrite <- !app_comm_cons];
      by rewrite join_lines_cons_cons, str_app_cons. }
  rewrite Hj, str_app_cons, lstrip_unchanged by done.
  rewrite <- str_app_cons, <- Hj, WordListFacts.rstrip_app_space by done.
  destruct (exists_last Hne2) as (ws2' & b & ->).
  apply Forall_app in Hws2 as [_ [Hb _]%Forall_cons].
  replace ((String c word :: ws1) ++ "" :: ws2' ++ [b])
    with (((String c word :: ws1) ++ "" :: ws2') ++ [b])
    by (by rewrite <- (assoc_L (++))).
  destruct (join_lines_snoc ((String c word :: ws1) ++ "" :: ws2') b)
    as [a ->].
  by apply WordListFacts.rstrip_app_token.
Qed.

End StripMore.

Module ScriptMore.
Import Script ScriptSpec MoreSpec ScriptFacts PyStrFacts PrunerFacts.

Section with_world.
Context (w : World).

Lemma with_dictionary_trace args cmd :
  trace (with_dictionary w args cmd) = [].
Proof.
  unfold with_dictionary. destruct (truthy _); [|done].
  destruct (dictionary_path args); [done| |done].
  by destruct (negb _).
Qed.

Lemma with_dictionary_Ok args cmd :
  outcome (with_dictionary w args (aspell_cmd args)) = Ok cmd →
  cmd ++ ["list"] = engine_cmd args.
Proof.
  unfold with_dictionary, engine_cmd.
  destruct (dictionary_path args) as [|path|truth shown]; simpl.
  - intros [= <-]. done.
  - destruct (String.eqb path ""); simpl.
    + intros [= <-]. done.
    + destruct (path_exists w path); simpl; [|done].
      intros [= <-]. done.
  - destruct truth; [done|]. intros [= <-]. done.
Qed.

Lemma with_dictionary_raises args cmd e :
  outcome (with_dictionary w args cmd) = Raise e →
  ∃ msg, e = SpellcheckError msg.
Proof.
  unfold with_dictionary. destruct (truthy _); [|done].
  destruct (dictionary_path args); [intros [= <-]; eauto| |intros [= <-]; eauto].
  destruct (negb _); [intros [= <-]; eauto|done].
Qed.

(** One file, all well: the three processes, and the engine's output. *)
Lemma spellcheck_success args path engine_out :
  outcome (spellcheck w args path) = Ok engine_out →
  spellcheck w args path =
    (processes w args path,
     Ok (proc_stdout
           (subprocess_run w (engine_cmd args)
              (Some (pruned_markdown w path))))).
Proof.
  intros Hout. unfold spellcheck in Hout |- *.
  assert (∃ pruned, outcome (Pruner.prune_content w path) = Ok pruned)
    as [pruned Hp].
  { rewrite outcome_bind in Hout.
    destruct (outcome (Pruner.prune_content w path)); [eauto|done]. }
  rewrite (PrunerMore.prune_content_success w path pruned Hp) in Hout |- *.
  rewrite bind_ok in Hout |- *.
  pose proof (with_dictionary_trace args (aspell_cmd args)) as Ht.
  destruct (with_dictionary w args (aspell_cmd args)) as [t [cmd|e]] eqn:Hd;
    simpl in Ht; subst t; [|done].
  rewrite bind_ok in Hout |- *.
  assert (cmd ++ ["list"] = engine_cmd args) as Hcmd
    by (apply with_dictionary_Ok; by rewrite Hd).
  rewrite Hcmd, run_checked_run in Hout |- *.
  destruct (_ =? 0); [|done]. by rewrite bind_ok.
Qed.

Lemma spellcheck_raises args path e :
  outcome (spellcheck w args path) = Raise e →
  ∃ msg, e = SpellcheckError msg.
Proof.
  unfold spellcheck. rewrite outcome_bind.
  destruct (outcome (Pruner.prune_content w path)) eqn:Hp.
  2: { intros [= <-]. by apply prune_content_raises in Hp. }
  rewrite outcome_bind.
  destruct (outcome (with_dictionary w args (aspell_cmd args))) eqn:Hd.
  2: { intros [= <-]. by apply with_dictionary_raises in Hd. }
  rewrite outcome_bind, run_checked_outcome.
  destruct (_ =? 0); [done|]. intros [= <-]. eauto.
Qed.

Lemma spellcheck_trace_runs args path :
  Forall (λ ev, is_run ev = true) (trace (spellcheck w args path)).
Proof.
  unfold spellcheck. apply trace_bind_all.
  - unfold Pruner.prune_content. destruct (negb _); [constructor|].
    apply trace_bind_all; [by rewrite run_checked_trace; repeat constructor|].
    intros r. apply trace_bind_all;
      [by rewrite run_checked_trace; repeat constructor|constructor].
  - intros pruned. apply trace_bind_all.
    + rewrite with_dictionary_trace. constructor.
    + intros cmd. apply trace_bind_all;
        [by rewrite run_checked_trace; repeat constructor|constructor].
Qed.

(** The loop over the files. *)
Lemma check_files_success args filepaths lists t lists' :
  check_files w args filepaths lists = (t, Ok lists') →
  t = flat_map (processes w args) filepaths
  ∧ Forall (λ path, ∃ engine_out,
              outcome (spellcheck w args path) = Ok engine_out) filepaths.
Proof.
  revert lists t. induction filepaths as [|path rest IH]; intros lists t.
  - by intros [= <- _].
  - cbn [check_files].
    intros (t1 & out & t2 & Hs & Hrest & ->)%bind_Ok_inv.
    apply IH in Hrest as [-> Hall].
    assert (outcome (spellcheck w args path) = Ok out) as Hout by (by rewrite Hs).
    rewrite (spellcheck_success _ _ _ Hout) in Hs. injection Hs as <- _.
    split; [done|]. constructor; [by exists out|done].
Qed.

Lemma check_files_failure args before path after lists e :
  Forall (λ q, ∃ engine_out,
            outcome (spellcheck w args q) = Ok engine_out) before →
  outcome (spellcheck w args path) = Raise e →
  check_files w args (before ++ path :: after) lists =
    (flat_map (processes w args) before ++ trace (spellcheck w args path),
     Raise e).
Proof.
  intros Hbefore Hfail. revert lists.
  induction Hbefore as [|q before [out Hq] _ IH]; intros lists.
  - cbn [app check_files flat_map].
    destruct (spellcheck w args path) as [t r]. simpl in Hfail. by subst r.
  - cbn [app check_files flat_map].
    rewrite (spellcheck_success _ _ _ Hq), bind_ok, IH.
    done.
Qed.

Lemma check_files_trace_runs args filepaths lists :
  Forall (λ ev, is_run ev = true) (trace (check_files w args filepaths lists)).
Proof.
  revert lists. induction filepaths as [|path rest IH]; intros lists;
    [constructor|].
  cbn [check_files]. apply trace_bind_all; [apply spellcheck_trace_runs|].
  intros out. apply IH.
Qed.

Lemma main_run args :
  main w args =
  bind ([banner w], Ok tt)
    (λ _, bind (check_files w args (glob_glob w (files args)) ([], []))
            (λ '(good_files, bad_files),
               aggregate w args good_files bad_files)).
Proof. reflexivity. Qed.

(** What the aggregator prints. *)
Lemma wrap_print_trace_stdout text :
  Forall (λ ev, is_stdout ev = true) (trace (wrap_print w text)).
Proof. by repeat constructor. Qed.

Lemma print_trace_stdout text :
  Forall (λ ev, is_stdout ev = true) (trace (print text)).
Proof. by repeat constructor. Qed.

Lemma report_good_trace_stdout good bad :
  Forall (λ ev, is_stdout ev = true) (trace (report_good w good bad)).
Proof.
  unfold report_good. destruct (negb _); [|constructor].
  apply trace_bind_all.
  { destruct (1 <? _); apply wrap_print_trace_stdout. }
  intros _. apply trace_bind_all.
  { apply trace_for_each_all. intros cf. apply print_trace_stdout. }
  intros _. apply trace_bind_all; [apply print_trace_stdout|].
  intros _. destruct (is_empty bad); [apply print_trace_stdout|constructor].
Qed.

Lemma report_bad_file_trace_stdout cf :
  Forall (λ ev, is_stdout ev = true) (trace (report_bad_file w cf)).
Proof.
  unfold report_bad_file.
  apply trace_bind_all; [apply wrap_print_trace_stdout|]. intros _.
  apply trace_bind_all; [apply ReporterMore.reporter_trace_stdout|]. intros _.
  apply trace_bind_all; [apply wrap_print_trace_stdout|]. intros _.
  apply trace_bind_all; [|intros _; apply print_trace_stdout].
  apply trace_for_each_all. intros word. apply print_trace_stdout.
Qed.

Lemma aggregate_trace_stdout args good bad :
  Forall (λ ev, is_stdout ev = true) (trace (aggregate w args good bad)).
Proof.
  unfold aggregate. apply trace_bind_all; [apply report_good_trace_stdout|].
  intros _. unfold report_bad. destruct (negb _); [|constructor].
  apply trace_bind_all; [apply wrap_print_trace_stdout|]. intros _.
  apply trace_bind_all.
  { apply trace_for_each_all, report_bad_file_trace_stdout. }
  intros _. apply trace_bind_all; [apply wrap_print_trace_stdout|]. intros _.
  apply trace_bind_all; [apply wrap_print_trace_stdout|]. intros _.
  apply trace_bind_all; [by repeat constructor|]. intros _. constructor.
Qed.

Lemma main_outcome_failed args t e :
  check_files w args (glob_glob w (files args)) ([], []) = (t, Raise e) →
  main w args = (banner w :: t, Raise e).
Proof. intros Hrun. rewrite main_run, bind_ok, Hrun. done. Qed.

(** X9. A pattern that matches no file: the run prints its first line
    and nothing else, runs no process and returns 0. *)
Theorem no_files_nothing_done args :
  glob_glob w (files args) = [] →
  main w args = ([banner w], Ok 0) ∧ script w args = ([banner w], 0).
Proof.
  intros Hglob.
  assert (main w args = ([banner w], Ok 0)) as Hmain
    by (rewrite main_run, Hglob; reflexivity).
  split; [done|]. unfold script. by rewrite Hmain.
Qed.

(** X10. The first file that cannot be spellchecked ends the run: the
    files before it have been processed, the files after it are not
    touched, nothing but the first line has been printed, and the error,
    always a [SpellcheckError], is reported with exit status 1. *)
Theorem first_error_ends_run args before path after e :
  glob_glob w (files args) = before ++ path :: after →
  Forall (λ q, ∃ engine_out,
            outcome (spellcheck w args q) = Ok engine_out) before →
  outcome (spellcheck w args path) = Raise e →
  ∃ msg,
    e = SpellcheckError msg
    ∧ main w args =
        (banner w :: flat_map (processes w args) before
           ++ trace (spellcheck w args path),
         Raise e)
    ∧ script w args =
        ((banner w :: flat_map (processes w args) before
            ++ trace (spellcheck w args path)) ++ [Fatal msg], 1)
    ∧ Forall (λ ev, is_run ev = true) (trace (spellcheck w args path)).
Proof.
  intros Hglob Hbefore Hfail.
  destruct (spellcheck_raises _ _ _ Hfail) as [msg ->]. exists msg.
  assert (main w args =
          (banner w :: flat_map (processes w args) before
             ++ trace (spellcheck w args path),
           Raise (SpellcheckError msg))) as Hmain.
  { apply main_outcome_failed. rewrite Hglob.
    by apply check_files_failure. }
  split; [done|]. split; [done|]. split; [|apply spellcheck_trace_runs].
  unfold script. by rewrite Hmain.
Qed.

(** X11. The exit status is 0 or 1, and it is 0 only when every file
    was checked and none of them is a bad file. *)
Theorem exit_status_zero_or_one args :
  (exit_status w args = 0 ∨ exit_status w args = 1)
  ∧ (exit_status w args = 0 ↔
     ∃ t good_files,
       check_files w args (glob_glob w (files args)) ([], [])
       = (t, Ok (good_files, []))).
Proof.
  rewrite exit_status_spec.
  destruct (check_files w args (glob_glob w (files args)) ([], []))
    as [t [[good bad]|e]] eqn:Hrun.
  - rewrite (main_outcome w args t good bad Hrun), report_bad_outcome.
    destruct bad as [|cf bad].
    + split; [by left|]. split; [eauto|done].
    + destruct (outcome (for_each _ _)); (split; [by right|]);
        (split; [done|]); by intros (? & ? & [=]).
  - rewrite (main_outcome_failed args t e Hrun). simpl.
    split; [by right|]. split; [done|]. by intros (? & ? & [=]).
Qed.

(** X12. A run in which every file is checked takes three processes per
    file, in the order of the files: the conversion to HTML, the
    conversion to markdown and the engine, which reads what the second
    conversion wrote and whose command names the personal dictionary
    exactly when the dictionary argument is a non-empty string. *)
Theorem three_processes_per_file args filepaths t lists :
  check_files w args filepaths ([], []) = (t, Ok lists) →
  t = flat_map (processes w args) filepaths
  ∧ ∀ path, path ∈ filepaths →
      spellcheck w args path =
        (processes w args path,
         Ok (proc_stdout
               (subprocess_run w (engine_cmd args)
                  (Some (pruned_markdown w path))))).
Proof.
  intros [-> Hall]%check_files_success. split; [done|].
  intros path Hpath. rewrite Forall_forall in Hall.
  destruct (Hall path Hpath) as [out Hout]. by eapply spellcheck_success.
Qed.

(** X13. Nothing is reported before all files are checked: after its
    first line a run only starts processes, and once it prints again it
    starts no process any more. *)
Theorem processes_before_report args :
  ∃ runs prints,
    trace (main w args) = banner w :: runs ++ prints
    ∧ Forall (λ ev, is_run ev = true) runs
    ∧ Forall (λ ev, is_stdout ev = true) prints.
Proof.
  pose proof (check_files_trace_runs args (glob_glob w (files args)) ([], []))
    as Hruns.
  destruct (check_files w args (glob_glob w (files args)) ([], []))
    as [t [[good bad]|e]] eqn:Hrun; simpl in Hruns.
  - exists t, (trace (aggregate w args good bad)).
    split; [|split; [done|apply aggregate_trace_stdout]].
    rewrite main_run, bind_ok, Hrun, bind_ok. done.
  - exists t, []. split; [|split; [done|constructor]].
    rewrite (main_outcome_failed args t e Hrun). simpl. by rewrite app_nil_r.
Qed.

(** X14. The words stored for a bad file carry no white space at either
    end and no newline; nothing else is asked of them. *)
Theorem stored_words_stripped args filepaths t good_files bad_files :
  check_files w args filepaths ([], []) = (t, Ok (good_files, bad_files)) →
  ∀ cf word, cf ∈ bad_files → word ∈ misspelled_words cf →
    PyStr.strip word = word ∧ has_char PyStr.newline word = false.
Proof.
  intros (good1 & bad1 & -> & -> & _ & Hb & _)%check_files_inv.
  simpl. intros cf word Hcf Hword. rewrite Forall_forall in Hb.
  destruct (Hb cf Hcf) as [_ (out & _ & _ & Hwords)].
  rewrite Hwords in Hword.
  apply list_elem_of_fmap in Hword as (piece & -> & Hpiece).
  split; [apply StripMore.strip_idempotent|].
  pose proof (StripMore.split_lines_pieces (PyStr.strip out)) as Hall.
  rewrite Forall_forall in Hall.
  apply StripMore.has_char_rstrip, StripMore.has_char_lstrip, Hall, Hpiece.
Qed.

(** X18. A blank line between two words in the engine's output becomes
    an empty word of the stored list. *)
Theorem blank_line_gives_empty_word path ws1 ws2 lists :
  ws1 ≠ [] → ws2 ≠ [] →
  Forall (λ word, token word = true) ws1 →
  Forall (λ word, token word = true) ws2 →
  classify path
    (PyStr.join_lines (ws1 ++ "" :: ws2) +:+ String PyStr.newline "") lists
  = (lists.1,
     lists.2 ++ [{| filepath := path;
                    misspelled_words := ws1 ++ "" :: ws2 |}]).
Proof.
  intros Hne1 Hne2 Hws1 Hws2. destruct lists as [good bad].
  rewrite classify_spec.
  pose proof (StripMore.strip_blank_between ws1 ws2 Hne1 Hne2 Hws1 Hws2)
    as Hstrip.
  assert (Forall (λ piece, no_space piece = true) (ws1 ++ "" :: ws2)) as Hpieces.
  { apply Forall_app. split; [|constructor; [done|]];
      (eapply Forall_impl; [eassumption|]);
      intros ?; apply WordListFacts.token_no_space. }
  destruct (PyStr.all_space _) eqn:Hs.
  - apply strip_nil_iff in Hs. rewrite Hstrip in Hs.
    destruct ws1 as [|[|c word] ws1]; [done| |].
    + by apply Forall_cons in Hws1 as [? _].
    + destruct ws1; simpl in Hs; discriminate.
  - rewrite Hstrip, StripMore.split_join_lines by (done || by destruct ws1).
    simpl. do 3 f_equal.
    assert (∀ l, Forall (λ word, token word = true) l →
                 map PyStr.strip l = l) as Hmap.
    { intros l Hl. induction Hl as [|x l Hx _ IH]; [done|].
      simpl. by rewrite WordListFacts.strip_token, IH. }
    by rewrite map_app, (Hmap ws1), map_cons, (Hmap ws2).
Qed.

(** X15. When none of the words of the first bad file occurs in the
    file as it is on disk, the run ends in the reporter's [IndexError]
    right after the heading of that file: the exception is not caught,
    no fatal-error line is written, the exit status is 1. *)
Theorem reporter_failure_ends_run args t good_files bad_file rest lines :
  check_files w args (glob_glob w (files args)) ([], [])
    = (t, Ok (good_files, bad_file :: rest)) →
  readlines w (filepath bad_file) = Some lines →
  (∀ word line, word ∈ misspelled_words bad_file → line ∈ lines →
                PyStr.contains word line = false) →
  outcome (main w args) = Raise IndexError
  ∧ script w args = (trace (main w args), 1)
  ∧ ∃ found heading,
      trace (main w args) =
        banner w :: t
        ++ trace (report_good w good_files (bad_file :: rest))
        ++ [Stdout found; Stdout heading].
Proof.
  intros Hrun Hread Hno.
  pose proof (ReporterMore.print_words_context_no_match w _ _ lines
                Hread Hno) as Hfail.
  assert (∃ heading,
            report_bad_file w bad_file = ([Stdout heading], Raise IndexError))
    as [heading Hfile].
  { unfold report_bad_file, wrap_print.
    rewrite wrap_print_end_run, bind_ok, Hfail. eauto. }
  assert (∃ found,
            report_bad w args (bad_file :: rest)
            = ([Stdout found; Stdout heading], Raise IndexError))
    as [found Hbad].
  { unfold report_bad, wrap_print. cbn [is_empty negb for_each].
    rewrite wrap_print_end_run, bind_ok, Hfile. eauto. }
  assert (main w args =
          (banner w :: t
             ++ trace (report_good w good_files (bad_file :: rest))
             ++ [Stdout found; Stdout heading],
           Raise IndexError)) as Hmain.
  { rewrite main_run, bind_ok, Hrun, bind_ok. unfold aggregate.
    pose proof (report_good_ok w good_files (bad_file :: rest)) as Hok.
    destruct (report_good w good_files (bad_file :: rest)) as [tg [[]|]];
      [|done].
    rewrite bind_ok, Hbad. done. }
  split; [by rewrite Hmain|]. split; [|exists found, heading; by rewrite Hmain].
  unfold script. by rewrite Hmain.
Qed.

End with_world.
End ScriptMore.

(** ** The further properties at work on the concrete worlds *)

Module MoreRuns.
Import Reporter ReportSpec Script ScriptSpec Pruner PruneSpec MoreSpec.

Lemma prune_content_processes_witness :
  path_exists MoreDemo.world "nothing.md" = false
  ∧ prune_content MoreDemo.world "nothing.md" =
      ([], Raise (SpellcheckError (NonExistentFile "nothing.md")))
  ∧ path_exists MoreDemo.world "folder" = true
  ∧ prune_content MoreDemo.world "folder" =
      ([Run (to_html_cmd "folder") None],
       Raise (SpellcheckError (ToHtmlFailed "folder" (to_html_cmd "folder"))))
  ∧ path_exists MoreDemo.world "emph.md" = true
  ∧ prune_content MoreDemo.world "emph.md" =
      ([Run (to_html_cmd "emph.md") None;
        Run to_markdown_cmd (Some MoreDemo.emph_html)],
       Ok ("A wrold." +:+ Demo.nl)).
Proof.
  destruct (PrunerMore.prune_content_processes MoreDemo.world "nothing.md")
    as (Hmissing & _ & _).
  destruct (PrunerMore.prune_content_processes MoreDemo.world "folder")
    as (_ & Hfailed & _).
  destruct (PrunerMore.prune_content_processes MoreDemo.world "emph.md")
    as (_ & _ & Hfine).
  split; [reflexivity|]. split; [apply Hmissing; reflexivity|].
  split; [reflexivity|]. split; [apply Hfailed; [reflexivity|discriminate]|].
  split; [reflexivity|].
  destruct Hfine as [_ Hrun]; [reflexivity..|]. exact Hrun.
Defined.

Lemma pruning_is_idempotent_witness :
  has_tag is_code MoreDemo.plain_tree = false
  ∧ has_tag is_source_div MoreDemo.plain_tree = false
  ∧ has_link MoreDemo.plain_tree = false
  ∧ pruned_tree MoreDemo.plain_tree = MoreDemo.plain_tree
  ∧ pruned_tree (pruned_tree Demo.links_tree) = pruned_tree Demo.links_tree.
Proof.
  destruct (PrunerMore.pruning_is_idempotent MoreDemo.plain_tree)
    as (_ & Hsame & _).
  destruct (PrunerMore.pruning_is_idempotent Demo.links_tree)
    as (_ & _ & Htwice).
  split; [reflexivity|]. split; [reflexivity|]. split; [reflexivity|].
  split; [apply Hsame; reflexivity|exact Htwice].
Defined.

Lemma strip_https_idempotent_witness :
  PyStr.contains "https://" "<p>See http://example.org.</p>" = false
  ∧ strip_https "<p>See http://example.org.</p>"
    = "<p>See http://example.org.</p>".
Proof.
  destruct (PrunerMore.strip_https_idempotent "<p>See http://example.org.</p>")
    as [Hsame _].
  split; [reflexivity|apply Hsame; reflexivity].
Defined.

Lemma strip_https_takes_whole_token_witness :
  no_space "example.org</p>" = true
  ∧ strip_https ("https://" +:+ "example.org</p>") = ""
  ∧ strip_https ("https://" +:+ "example.org</p>" +:+ String " " "<p>next</p>")
    = String " " (strip_https "<p>next</p>").
Proof.
  destruct (PrunerMore.strip_https_takes_whole_token "example.org</p>")
    as [Hend Hspace]; [reflexivity|].
  split; [reflexivity|]. split; [exact Hend|].
  apply Hspace. reflexivity.
Defined.

Lemma reporter_all_or_nothing_witness :
  readlines MoreDemo.world "latin1.md" = None
  ∧ print_words_context MoreDemo.world "latin1.md" ["wrold"]
    = ([], Raise UnicodeDecodeError)
  ∧ readlines MoreDemo.world "nothing.md" = None
  ∧ print_words_context MoreDemo.world "nothing.md" ["wrold"]
    = ([], Raise OSError).
Proof.
  destruct (ReporterMore.reporter_all_or_nothing MoreDemo.world "latin1.md"
              ["wrold"]) as (Hdecode & _ & _).
  destruct (ReporterMore.reporter_all_or_nothing MoreDemo.world "nothing.md"
              ["wrold"]) as (Hopen & _ & _).
  split; [reflexivity|]. split; [apply Hdecode; reflexivity|].
  split; [reflexivity|apply Hopen; reflexivity].
Defined.

Lemma printed_lines_near_matches_witness :
  readlines Demo.world "bad.md" = Some Demo.bad_lines
  ∧ ∃ ps,
      print_words_context Demo.world "bad.md" ["wrold"] =
        (report (line_number_width Demo.bad_lines)
           (map (highlight ["wrold"]) Demo.bad_lines) ps, Ok tt)
      ∧ (2 ∉ ps)
      ∧ map (highlight ["wrold"]) Demo.bad_lines !! 1%nat
        = Some ("This is fine." +:+ Demo.nl).
Proof.
  split; [reflexivity|].
  destruct (ReporterMore.printed_lines_near_matches Demo.world "bad.md"
              ["wrold"] Demo.bad_lines eq_refl Runs.wrold_in_bad_lines)
    as (ps & Hrun & Hnear & Hplain).
  exists ps. split; [exact Hrun|]. split.
  - intros (_ & m & (line & Hm & Hline & Hmatch) & Hdist)%Hnear.
    pose proof (lookup_lt_Some _ _ _ Hline) as Hlt.
    change (length Demo.bad_lines) with 3%nat in Hlt.
    assert (m = 1 ∨ m = 2) as [->| ->] by lia; vm_compute in Hline;
      injection Hline as <-; vm_compute in Hmatch; discriminate.
  - apply (Hplain 1 ("This is fine." +:+ Demo.nl)); [lia|reflexivity..].
Defined.

Lemma empty_word_prints_whole_file_witness :
  readlines Demo.world "bad.md" = Some Demo.bad_lines
  ∧ "" ∈ ["wrold"; ""]
  ∧ print_words_context Demo.world "bad.md" ["wrold"; ""] =
      ((context_line (line_number_width Demo.bad_lines)
          (map (highlight ["wrold"; ""]) Demo.bad_lines) <$> [0; 1; 2])
       ++ [Stdout ("" +:+ Demo.nl)], Ok tt).
Proof.
  assert ("" ∈ ["wrold"; ""]) as Hin by (right; left).
  split; [reflexivity|]. split; [exact Hin|].
  apply (ReporterMore.empty_word_prints_whole_file Demo.world "bad.md"
           ["wrold"; ""] Demo.bad_lines eq_refl); [discriminate|exact Hin].
Defined.

Lemma line_numbers_aligned_witness :
  String.length (numbered (line_number_width Demo.nine_lines) 0 "text")
  = String.length (numbered (line_number_width Demo.nine_lines) 8 "text").
Proof.
  rewrite (ReporterMore.line_numbers_aligned Demo.nine_lines 0 "text")
    by (vm_compute; split; [discriminate|reflexivity]).
  rewrite (ReporterMore.line_numbers_aligned Demo.nine_lines 8 "text")
    by (vm_compute; split; [discriminate|reflexivity]).
  reflexivity.
Defined.

Lemma no_files_nothing_done_witness :
  glob_glob Demo.world (files (Demo.args "nothing.md")) = []
  ∧ main Demo.world (Demo.args "nothing.md") = ([banner Demo.world], Ok 0).
Proof.
  destruct (ScriptMore.no_files_nothing_done Demo.world
              (Demo.args "nothing.md") eq_refl) as [Hmain _].
  split; [reflexivity|exact Hmain].
Defined.

Lemma first_error_ends_run_witness :
  glob_glob MoreDemo.world (files (Demo.args "folder")) = [] ++ "folder" :: []
  ∧ outcome (spellcheck MoreDemo.world (Demo.args "folder") "folder")
    = Raise (SpellcheckError (ToHtmlFailed "folder" (to_html_cmd "folder")))
  ∧ script MoreDemo.world (Demo.args "folder") =
      ([banner MoreDemo.world; Run (to_html_cmd "folder") None;
        Fatal (ToHtmlFailed "folder" (to_html_cmd "folder"))], 1).
Proof.
  split; [reflexivity|]. split; [reflexivity|].
  destruct (ScriptMore.first_error_ends_run MoreDemo.world (Demo.args "folder")
              [] "folder" []
              (SpellcheckError (ToHtmlFailed "folder" (to_html_cmd "folder")))
              eq_refl (Forall_nil_2 _) eq_refl)
    as (msg & Hmsg & _ & Hscript & _).
  injection Hmsg as <-. exact Hscript.
Defined.

Lemma exit_status_zero_or_one_witness :
  exit_status Demo.world (Demo.args "clean.md") = 0
  ∧ exit_status Demo.world (Demo.args "*.md") ≠ 0.
Proof.
  destruct (ScriptMore.exit_status_zero_or_one Demo.world (Demo.args "clean.md"))
    as [_ Hclean].
  destruct (ScriptMore.exit_status_zero_or_one Demo.world (Demo.args "*.md"))
    as [_ Hbad].
  split.
  - apply Hclean. eexists _, _. vm_compute. reflexivity.
  - intros (t & good & Hrun)%Hbad. vm_compute in Hrun. discriminate.
Defined.

Lemma three_processes_per_file_witness :
  ∃ t,
    check_files Demo.world (Demo.args "*.md") ["clean.md"; "bad.md"] ([], [])
      = (t, Ok ([Demo.clean_file], [Demo.bad_file]))
    ∧ t = processes Demo.world (Demo.args "*.md") "clean.md"
          ++ processes Demo.world (Demo.args "*.md") "bad.md".
Proof.
  eassert (check_files Demo.world (Demo.args "*.md") ["clean.md"; "bad.md"]
             ([], []) = (_, Ok ([Demo.clean_file], [Demo.bad_file])))
    as Hrun by (vm_compute; reflexivity).
  destruct (ScriptMore.three_processes_per_file Demo.world (Demo.args "*.md")
              _ _ _ Hrun) as [Ht _].
  eexists. split; [exact Hrun|exact Ht].
Defined.

Lemma processes_before_report_witness :
  ∃ runs prints,
    trace (main Demo.world (Demo.args "*.md"))
      = banner Demo.world :: runs ++ prints
    ∧ Forall (λ ev, is_run ev = true) runs
    ∧ Forall (λ ev, is_stdout ev = true) prints.
Proof. exact (ScriptMore.processes_before_report Demo.world (Demo.args "*.md")). Defined.

Lemma stored_words_stripped_witness :
  ∃ t,
    check_files Demo.world (Demo.args "twice.md") ["twice.md"] ([], [])
      = (t, Ok ([], [Demo.twice_file]))
    ∧ ∀ word, word ∈ ["wrold"; "wrold"] → PyStr.strip word = word.
Proof.
  eassert (check_files Demo.world (Demo.args "twice.md") ["twice.md"]
             ([], []) = (_, Ok ([], [Demo.twice_file])))
    as Hrun by (vm_compute; reflexivity).
  eexists. split; [exact Hrun|]. intros word Hword.
  apply (ScriptMore.stored_words_stripped Demo.world (Demo.args "twice.md")
           _ _ _ _ Hrun Demo.twice_file word); [apply list_elem_of_here|exact Hword].
Defined.

Lemma reporter_failure_ends_run_witness :
  readlines MoreDemo.world "emph.md" = Some MoreDemo.emph_lines
  ∧ PyStr.contains "wrold" ("A wr**old**." +:+ Demo.nl) = false
  ∧ outcome (main MoreDemo.world (Demo.args "emph.md")) = Raise IndexError
  ∧ script MoreDemo.world (Demo.args "emph.md")
    = (trace (main MoreDemo.world (Demo.args "emph.md")), 1).
Proof.
  split; [reflexivity|]. split; [reflexivity|].
  eassert (check_files MoreDemo.world (Demo.args "emph.md")
             (glob_glob MoreDemo.world (files (Demo.args "emph.md"))) ([], [])
           = (_, Ok ([], [MoreDemo.emph_file])))
    as Hrun by (vm_compute; reflexivity).
  destruct (ScriptMore.reporter_failure_ends_run MoreDemo.world
              (Demo.args "emph.md") _ [] MoreDemo.emph_file []
              MoreDemo.emph_lines Hrun eq_refl)
    as (Hmain & Hscript & _).
  - intros word line Hword Hline.
    apply list_elem_of_singleton in Hword as ->.
    apply list_elem_of_singleton in Hline as ->. reflexivity.
  - split; [exact Hmain|exact Hscript].
Defined.

Lemma lone_word_is_wrapped_witness :
  readlines Demo.world "bad.md" = Some Demo.bad_lines
  ∧ PyStr.contains "wrold" ("Hello wrold." +:+ Demo.nl) = true
  ∧ wrapped "wrold" (highlight ["wrold"] ("Hello wrold." +:+ Demo.nl)) = true.
Proof.
  split; [reflexivity|]. split; [reflexivity|].
  destruct (ReporterMore.lone_word_is_wrapped Demo.world "bad.md" "wrold"
              Demo.bad_lines 0 ("Hello wrold." +:+ Demo.nl) eq_refl)
    as (ps & _ & _ & _ & Hwrapped);
    [discriminate|lia|reflexivity|reflexivity|exact Hwrapped].
Defined.

Lemma match_lines_are_substring_hits_witness :
  0 ∈ (mark_lines ["wrold"] 0 Demo.bad_lines ∅).1.
Proof.
  apply ReporterMore.match_lines_are_substring_hits.
  exists ("Hello wrold." +:+ Demo.nl), "wrold", "Hello ", ("." +:+ Demo.nl).
  split; [lia|]. split; [reflexivity|]. split; [apply list_elem_of_here|].
  reflexivity.
Defined.

Lemma blank_line_gives_empty_word_witness :
  classify "bad.md"
    ("wrold" +:+ Demo.nl +:+ Demo.nl +:+ "teh" +:+ Demo.nl) ([], [])
  = ([], [{| filepath := "bad.md";
             misspelled_words := ["wrold"; ""; "teh"] |}]).
Proof.
  apply (ScriptMore.blank_line_gives_empty_word "bad.md"
           ["wrold"] ["teh"] ([], [])); [discriminate..| |];
    repeat constructor.
Defined.

End MoreRuns.
